(** * Focus Writer Pro: session lifecycle

    A shallow embedding of the session controller of Focus Writer Pro, an
    Electron application: the renderer class [FocusWriterApp] (goal
    validation, tick, word counting, goal latch, keep-writing, exits), the
    preload bridge [window.focusWriter], and the IPC handlers of the main
    process (lockdown, draft storage, archive and session log).

    JavaScript strings are sequences of UTF-16 code units; numbers are
    integer-valued doubles, kept as [Z].  All the integers the controller
    handles (epoch milliseconds, word counts, minutes) stay far below 2^53,
    where double arithmetic on integers is exact; the one non-integer
    operand of the program, the literal [1.2] of [keepWriting], is modelled
    with its binary64 rounding.  An [async] handler is run to completion as
    one step: its [await]ed IPC calls are executed in place.

    The second part of the development covers the rest of the welcome
    screen and of the stored data (presets, Start Fresh, the history and
    its statistics, the settings), the Tab key of the editor, and the
    timed session of the browser edition [app.js]. *)

From Stdlib Require Import ZArith NArith List Bool String Ascii Lia.
From Stdlib Require Import DecimalString QArith Qminmax.
From Stdlib Require DecimalPos.
From stdpp Require Import base option list gmap.
Import ListNotations.

#[local] Open Scope Z_scope.

(** ** JavaScript strings and numbers *)

Module JS.

(** A string is the list of its UTF-16 code units. *)
Definition jsstring : Type := list N.

(** A literal of the source whose characters are all ASCII. *)
Definition lit (s : string) : jsstring :=
  List.map N_of_ascii (list_ascii_of_string s).

(** [!text] for a string: only the empty string is falsy. *)
Definition falsy (s : jsstring) : bool :=
  match s with [] => true | _ :: _ => false end.

(** ECMAScript WhiteSpace and LineTerminator code points: what [trim]
    strips, what [\s] matches and what [parseInt] skips. *)
Definition is_ws (c : N) : bool :=
  ((9 <=? c) && (c <=? 13) || (c =? 32) || (c =? 160) || (c =? 5760)
   || (8192 <=? c) && (c <=? 8202) || (c =? 8232) || (c =? 8233)
   || (c =? 8239) || (c =? 8287) || (c =? 12288) || (c =? 65279))%N.

Fixpoint dropWhile (p : N -> bool) (s : jsstring) : jsstring :=
  match s with
  | [] => []
  | c :: rest => if p c then dropWhile p rest else s
  end.

Definition trimStart (s : jsstring) : jsstring := dropWhile is_ws s.
Definition trimEnd (s : jsstring) : jsstring := rev (dropWhile is_ws (rev s)).

(** [String.prototype.trim] *)
Definition trim (s : jsstring) : jsstring := trimEnd (trimStart s).

(** [s.split(/\s+/)]: the matcher is tried at every index; a match is a
    maximal run of whitespace, it closes the substring collected so far
    and the scan resumes after the run.  [in_run] tells that the scan is
    inside such a run, [cur] holds the current substring, reversed. *)
Fixpoint split_go (in_run : bool) (cur : jsstring) (s : jsstring) : list jsstring :=
  match s with
  | [] => [rev cur]
  | c :: rest =>
      if is_ws c then
        if in_run then split_go true cur rest
        else rev cur :: split_go true [] rest
      else split_go false (c :: cur) rest
  end.

Definition split_ws (s : jsstring) : list jsstring := split_go false [] s.

(** ASCII letters, the part of the Unicode case mapping that is fixed
    here; the rest belongs to the host (see [Host]). *)
Definition is_ascii (c : N) : bool := (c <? 128)%N.
Definition ascii_upper (c : N) : N :=
  if ((97 <=? c) && (c <=? 122))%N then (c - 32)%N else c.

(** [parseInt(string)] without a radix: leading whitespace is skipped, a
    sign is read, a [0x]/[0X] prefix selects radix 16, then the longest
    prefix of digits is converted; no digit gives [NaN], here [None]. *)
Definition digit_value (radix : Z) (c : N) : option Z :=
  let d :=
    if ((48 <=? c) && (c <=? 57))%N then Z.of_N c - 48
    else if ((97 <=? c) && (c <=? 122))%N then Z.of_N c - 87
    else if ((65 <=? c) && (c <=? 90))%N then Z.of_N c - 55
    else radix in
  if d <? radix then Some d else None.

Fixpoint parse_digits (radix : Z) (acc : option Z) (s : jsstring) : option Z :=
  match s with
  | [] => acc
  | c :: rest =>
      match digit_value radix c with
      | Some d => parse_digits radix (Some (radix * default 0 acc + d)) rest
      | None => acc
      end
  end.

Definition strip_sign (s : jsstring) : Z * jsstring :=
  match s with
  | c :: rest =>
      if (c =? 45)%N then (-1, rest)
      else if (c =? 43)%N then (1, rest)
      else (1, s)
  | [] => (1, s)
  end.

Definition strip_hex_prefix (s : jsstring) : Z * jsstring :=
  match s with
  | z :: x :: rest =>
      if ((z =? 48) && ((x =? 120) || (x =? 88)))%N then (16, rest) else (10, s)
  | _ => (10, s)
  end.

Definition parseInt (s : jsstring) : option Z :=
  let '(sign, s1) := strip_sign (trimStart s) in
  let '(radix, s2) := strip_hex_prefix s1 in
  match parse_digits radix None s2 with
  | Some n => Some (sign * n)
  | None => None
  end.

(** [String(n)] for an integer. *)
Definition of_Z (n : Z) : jsstring := lit (NilZero.string_of_int (Z.to_int n)).

(** [s.padStart(2, '0')] *)
Definition padStart2 (s : jsstring) : jsstring :=
  match s with
  | [] => lit "00"
  | [c] => 48%N :: s
  | _ => s
  end.

(** binary64: a positive real [n * 2^e] with [n] an integer is rounded to
    53 significant bits, ties to even; the result is returned on the
    same scale [2^e]. *)
Definition round53 (n : Z) : Z :=
  let s := Z.log2 n - 52 in
  if s <=? 0 then n
  else
    let p := 2 ^ s in
    let q := n / p in
    let r := n mod p in
    if (p <? 2 * r) || ((p =? 2 * r) && Z.odd q) then (q + 1) * p else q * p.

(** The double nearest to 1.2 is [mant_1_2 * 2^-52]. *)
Definition mant_1_2 : Z := 5404319552844595.

(** [Math.ceil(g * 1.2)] for an integer-valued double [g]: the exact
    product [g * mant_1_2 * 2^-52] is rounded to a double, then [ceil]
    is taken. *)
Definition ceil_times_1_2 (g : Z) : Z :=
  let m := Z.sgn g * round53 (Z.abs g * mant_1_2) in
  - ((- m) / 2 ^ 52).

End JS.

Export JS.

(** ** The host

    What the program takes from its platform and that is not fixed by the
    language: the Unicode case mapping outside ASCII, the renderings of
    dates and of numbers, and the operating system. *)

Class Host : Type := {
  (** [s.toUpperCase()] for a string with a code unit outside ASCII *)
  unicodeUpper : jsstring -> jsstring;
  (** [new Date(t).toISOString()] *)
  toISOString : Z -> jsstring;
  (** [new Date(t).toLocaleString()] *)
  dateToLocaleString : Z -> jsstring;
  (** [n.toLocaleString()] *)
  numberToLocaleString : Z -> jsstring;
  (** [process.platform === 'darwin'] *)
  platform_darwin : bool
}.

(** [String.prototype.toUpperCase] *)
Definition toUpperCase `{Host} (s : jsstring) : jsstring :=
  if forallb is_ascii s then List.map ascii_upper s else unicodeUpper s.

(** ** Data model *)

(** The goal types ['words'] and ['time'] that [setGoalType] receives from
    the two goal-type buttons. *)
Inductive goal_type : Type := Words | Time.

Definition is_words (g : goal_type) : bool :=
  match g with Words => true | Time => false end.
Definition is_time (g : goal_type) : bool :=
  match g with Time => true | Words => false end.

(** The renderer's [this.session]. *)
Record session : Type := {
  active : bool;
  goalType : goal_type;
  goalValue : Z;
  strictMode : bool;
  startTime : option Z;
  startWordCount : Z;
  currentWordCount : Z;
  timerInterval : option N;
  autoSaveInterval : option N;
  elapsedSeconds : Z;
  goalTriggered : bool;
  goalCompleted : bool
}.

(** The object literal of the constructor and of [resetSession]. *)
Definition default_session : session := {|
  active := false;
  goalType := Words;
  goalValue := 500;
  strictMode := true;
  startTime := None;
  startWordCount := 0;
  currentWordCount := 0;
  timerInterval := None;
  autoSaveInterval := None;
  elapsedSeconds := 0;
  goalTriggered := false;
  goalCompleted := false
|}.

(** The phases of the specification, read off the two flags of the
    session: [active] from the start of a session until its goal is
    reached, [goalCompleted] from then until keep-writing or an exit.  The
    phase EmergencyExited of the specification is no state of the program:
    the emergency exit resets the session at once. *)
Inductive phase : Type := Idle | Active | GoalReached.

Definition phase_of (s : session) : phase :=
  if active s then Active
  else if goalCompleted s then GoalReached
  else Idle.

(** The argument of [start-session]. *)
Record session_config : Type := {
  cfg_goalType : goal_type;
  cfg_goalValue : Z;
  cfg_strictMode : bool
}.

(** The [stats] argument of [end-session]. *)
Record session_stats : Type := {
  stats_words : Z;
  stats_duration : jsstring;
  stats_goalType : goal_type;
  stats_goalValue : Z;
  stats_completed : bool
}.

(** An element of [sessions.json]; [null] is [None].  [entry_draftPath] is
    the name of the archive inside [drafts/]. *)
Record session_entry : Type := {
  entry_date : jsstring;
  entry_words : Z;
  entry_duration : option jsstring;
  entry_goalType : option goal_type;
  entry_goalValue : option Z;
  entry_completed : bool;
  entry_draftPath : jsstring
}.

Inductive timer_callback : Type := TickTimer | AutoSaveTimer.

Inductive screen_name : Type := WelcomeScreen | WritingScreen | CompletionScreen.

(** The renderer: the session, the DOM values the controller reads and
    writes, and the intervals registered with [setInterval]. *)
Record app_state : Type := {
  app_session : session;
  editor_value : jsstring;
  currentDraft : jsstring;
  wordGoal_value : jsstring;
  timeGoal_value : jsstring;
  strictModeToggle_checked : bool;
  emergencyInput_value : jsstring;
  emergencyModal_hidden : bool;
  goalBanner_visible : bool;
  persistentExitBtn : bool;
  screen : screen_name;
  timers : gmap N timer_callback;
  next_timer : N
}.

(** The [BrowserWindow] settings the lockdown touches. *)
Record window : Type := {
  kiosk : bool;
  fullScreen : bool;
  alwaysOnTop : bool;
  closable : bool;
  minimizable : bool;
  visibleOnAllWorkspaces : bool;
  menuBarVisible : bool
}.

(** The module-level variables of the main process. *)
Record main_state : Type := {
  mainWindow : option window;
  isSessionActive : bool;
  sessionConfig : option session_config;
  lockdownInterval : bool;
  shortcutsRegistered : bool;
  dockHidden : bool
}.

Inductive fs_path : Type :=
| CurrentTxt
| SessionsJson
| DraftFile (name : jsstring).

(** The directory [Documents/Focus Writer Pro]: [current.txt],
    [sessions.json] and [drafts/].  [write_fails p] tells that an attempt
    to write [p] throws. *)
Record disk : Type := {
  current_txt : option jsstring;
  sessions_json : option (list session_entry);
  drafts : gmap jsstring jsstring;
  write_fails : fs_path -> bool
}.

Inductive ipc_request : Type :=
| StartSessionReq (config : session_config)
| GoalReachedReq
| EndSessionReq (content : jsstring) (stats : session_stats)
| EmergencyExitReq (content : jsstring)
| SaveContentReq (content : jsstring)
| LoadDraftReq.

Inductive log_message : Type :=
| TimeJump (timeDrift : Z)
| FailedToReleaseLockdown
| LockdownEngaged
| LockdownDisengaged
| GoalReachedLockdownReleased
| ErrorSavingContent
| ErrorArchivingDraft
| ErrorLoggingSession.

(** What the program does to the outside, in order. *)
Inductive effect : Type :=
| ConsoleLog (m : log_message)
| Invoke (r : ipc_request)
| ValidationError (message : jsstring)
| SaveIndicatorSaved
| SaveErrorBanner
| GoalBanner (text : jsstring)
| CompletionSound
| ClosePrevented
| WindowClosed
| ShowExitWarning.

Record world : Type := {
  app : app_state;
  main : main_state;
  fs : disk;
  out : list effect
}.

(** *** Field updates *)

Definition set_active (v : bool) (s : session) : session :=
  {| active := v; goalType := goalType s; goalValue := goalValue s;
     strictMode := strictMode s; startTime := startTime s;
     startWordCount := startWordCount s; currentWordCount := currentWordCount s;
     timerInterval := timerInterval s; autoSaveInterval := autoSaveInterval s;
     elapsedSeconds := elapsedSeconds s; goalTriggered := goalTriggered s;
     goalCompleted := goalCompleted s |}.

Definition set_goalValue (v : Z) (s : session) : session :=
  {| active := active s; goalType := goalType s; goalValue := v;
     strictMode := strictMode s; startTime := startTime s;
     startWordCount := startWordCount s; currentWordCount := currentWordCount s;
     timerInterval := timerInterval s; autoSaveInterval := autoSaveInterval s;
     elapsedSeconds := elapsedSeconds s; goalTriggered := goalTriggered s;
     goalCompleted := goalCompleted s |}.

Definition set_strictMode (v : bool) (s : session) : session :=
  {| active := active s; goalType := goalType s; goalValue := goalValue s;
     strictMode := v; startTime := startTime s;
     startWordCount := startWordCount s; currentWordCount := currentWordCount s;
     timerInterval := timerInterval s; autoSaveInterval := autoSaveInterval s;
     elapsedSeconds := elapsedSeconds s; goalTriggered := goalTriggered s;
     goalCompleted := goalCompleted s |}.

Definition set_startTime (v : option Z) (s : session) : session :=
  {| active := active s; goalType := goalType s; goalValue := goalValue s;
     strictMode := strictMode s; startTime := v;
     startWordCount := startWordCount s; currentWordCount := currentWordCount s;
     timerInterval := timerInterval s; autoSaveInterval := autoSaveInterval s;
     elapsedSeconds := elapsedSeconds s; goalTriggered := goalTriggered s;
     goalCompleted := goalCompleted s |}.

Definition set_startWordCount (v : Z) (s : session) : session :=
  {| active := active s; goalType := goalType s; goalValue := goalValue s;
     strictMode := strictMode s; startTime := startTime s;
     startWordCount := v; currentWordCount := currentWordCount s;
     timerInterval := timerInterval s; autoSaveInterval := autoSaveInterval s;
     elapsedSeconds := elapsedSeconds s; goalTriggered := goalTriggered s;
     goalCompleted := goalCompleted s |}.

Definition set_currentWordCount (v : Z) (s : session) : session :=
  {| active := active s; goalType := goalType s; goalValue := goalValue s;
     strictMode := strictMode s; startTime := startTime s;
     startWordCount := startWordCount s; currentWordCount := v;
     timerInterval := timerInterval s; autoSaveInterval := autoSaveInterval s;
     elapsedSeconds := elapsedSeconds s; goalTriggered := goalTriggered s;
     goalCompleted := goalCompleted s |}.

Definition set_timerInterval (v : option N) (s : session) : session :=
  {| active := active s; goalType := goalType s; goalValue := goalValue s;
     strictMode := strictMode s; startTime := startTime s;
     startWordCount := startWordCount s; currentWordCount := currentWordCount s;
     timerInterval := v; autoSaveInterval := autoSaveInterval s;
     elapsedSeconds := elapsedSeconds s; goalTriggered := goalTriggered s;
     goalCompleted := goalCompleted s |}.

Definition set_autoSaveInterval (v : option N) (s : session) : session :=
  {| active := active s; goalType := goalType s; goalValue := goalValue s;
     strictMode := strictMode s; startTime := startTime s;
     startWordCount := startWordCount s; currentWordCount := currentWordCount s;
     timerInterval := timerInterval s; autoSaveInterval := v;
     elapsedSeconds := elapsedSeconds s; goalTriggered := goalTriggered s;
     goalCompleted := goalCompleted s |}.

Definition set_elapsedSeconds (v : Z) (s : session) : session :=
  {| active := active s; goalType := goalType s; goalValue := goalValue s;
     strictMode := strictMode s; startTime := startTime s;
     startWordCount := startWordCount s; currentWordCount := currentWordCount s;
     timerInterval := timerInterval s; autoSaveInterval := autoSaveInterval s;
     elapsedSeconds := v; goalTriggered := goalTriggered s;
     goalCompleted := goalCompleted s |}.

Definition set_goalTriggered (v : bool) (s : session) : session :=
  {| active := active s; goalType := goalType s; goalValue := goalValue s;
     strictMode := strictMode s; startTime := startTime s;
     startWordCount := startWordCount s; currentWordCount := currentWordCount s;
     timerInterval := timerInterval s; autoSaveInterval := autoSaveInterval s;
     elapsedSeconds := elapsedSeconds s; goalTriggered := v;
     goalCompleted := goalCompleted s |}.

Definition set_goalCompleted (v : bool) (s : session) : session :=
  {| active := active s; goalType := goalType s; goalValue := goalValue s;
     strictMode := strictMode s; startTime := startTime s;
     startWordCount := startWordCount s; currentWordCount := currentWordCount s;
     timerInterval := timerInterval s; autoSaveInterval := autoSaveInterval s;
     elapsedSeconds := elapsedSeconds s; goalTriggered := goalTriggered s;
     goalCompleted := v |}.

Definition with_session (f : session -> session) (a : app_state) : app_state :=
  {| app_session := f (app_session a); editor_value := editor_value a;
     currentDraft := currentDraft a; wordGoal_value := wordGoal_value a;
     timeGoal_value := timeGoal_value a;
     strictModeToggle_checked := strictModeToggle_checked a;
     emergencyInput_value := emergencyInput_value a;
     emergencyModal_hidden := emergencyModal_hidden a;
     goalBanner_visible := goalBanner_visible a;
     persistentExitBtn := persistentExitBtn a; screen := screen a;
     timers := timers a; next_timer := next_timer a |}.

Definition set_editor_value (v : jsstring) (a : app_state) : app_state :=
  {| app_session := app_session a; editor_value := v;
     currentDraft := currentDraft a; wordGoal_value := wordGoal_value a;
     timeGoal_value := timeGoal_value a;
     strictModeToggle_checked := strictModeToggle_checked a;
     emergencyInput_value := emergencyInput_value a;
     emergencyModal_hidden := emergencyModal_hidden a;
     goalBanner_visible := goalBanner_visible a;
     persistentExitBtn := persistentExitBtn a; screen := screen a;
     timers := timers a; next_timer := next_timer a |}.

Definition set_currentDraft (v : jsstring) (a : app_state) : app_state :=
  {| app_session := app_session a; editor_value := editor_value a;
     currentDraft := v; wordGoal_value := wordGoal_value a;
     timeGoal_value := timeGoal_value a;
     strictModeToggle_checked := strictModeToggle_checked a;
     emergencyInput_value := emergencyInput_value a;
     emergencyModal_hidden := emergencyModal_hidden a;
     goalBanner_visible := goalBanner_visible a;
     persistentExitBtn := persistentExitBtn a; screen := screen a;
     timers := timers a; next_timer := next_timer a |}.

Definition set_wordGoal_value (v : jsstring) (a : app_state) : app_state :=
  {| app_session := app_session a; editor_value := editor_value a;
     currentDraft := currentDraft a; wordGoal_value := v;
     timeGoal_value := timeGoal_value a;
     strictModeToggle_checked := strictModeToggle_checked a;
     emergencyInput_value := emergencyInput_value a;
     emergencyModal_hidden := emergencyModal_hidden a;
     goalBanner_visible := goalBanner_visible a;
     persistentExitBtn := persistentExitBtn a; screen := screen a;
     timers := timers a; next_timer := next_timer a |}.

Definition set_timeGoal_value (v : jsstring) (a : app_state) : app_state :=
  {| app_session := app_session a; editor_value := editor_value a;
     currentDraft := currentDraft a; wordGoal_value := wordGoal_value a;
     timeGoal_value := v;
     strictModeToggle_checked := strictModeToggle_checked a;
     emergencyInput_value := emergencyInput_value a;
     emergencyModal_hidden := emergencyModal_hidden a;
     goalBanner_visible := goalBanner_visible a;
     persistentExitBtn := persistentExitBtn a; screen := screen a;
     timers := timers a; next_timer := next_timer a |}.

Definition set_strictModeToggle_checked (v : bool) (a : app_state) : app_state :=
  {| app_session := app_session a; editor_value := editor_value a;
     currentDraft := currentDraft a; wordGoal_value := wordGoal_value a;
     timeGoal_value := timeGoal_value a;
     strictModeToggle_checked := v;
     emergencyInput_value := emergencyInput_value a;
     emergencyModal_hidden := emergencyModal_hidden a;
     goalBanner_visible := goalBanner_visible a;
     persistentExitBtn := persistentExitBtn a; screen := screen a;
     timers := timers a; next_timer := next_timer a |}.

Definition set_goalType (v : goal_type) (s : session) : session :=
  {| active := active s; goalType := v; goalValue := goalValue s;
     strictMode := strictMode s; startTime := startTime s;
     startWordCount := startWordCount s; currentWordCount := currentWordCount s;
     timerInterval := timerInterval s; autoSaveInterval := autoSaveInterval s;
     elapsedSeconds := elapsedSeconds s; goalTriggered := goalTriggered s;
     goalCompleted := goalCompleted s |}.

Definition set_emergencyInput_value (v : jsstring) (a : app_state) : app_state :=
  {| app_session := app_session a; editor_value := editor_value a;
     currentDraft := currentDraft a; wordGoal_value := wordGoal_value a;
     timeGoal_value := timeGoal_value a;
     strictModeToggle_checked := strictModeToggle_checked a;
     emergencyInput_value := v;
     emergencyModal_hidden := emergencyModal_hidden a;
     goalBanner_visible := goalBanner_visible a;
     persistentExitBtn := persistentExitBtn a; screen := screen a;
     timers := timers a; next_timer := next_timer a |}.

Definition set_emergencyModal_hidden (v : bool) (a : app_state) : app_state :=
  {| app_session := app_session a; editor_value := editor_value a;
     currentDraft := currentDraft a; wordGoal_value := wordGoal_value a;
     timeGoal_value := timeGoal_value a;
     strictModeToggle_checked := strictModeToggle_checked a;
     emergencyInput_value := emergencyInput_value a;
     emergencyModal_hidden := v;
     goalBanner_visible := goalBanner_visible a;
     persistentExitBtn := persistentExitBtn a; screen := screen a;
     timers := timers a; next_timer := next_timer a |}.

Definition set_goalBanner_visible (v : bool) (a : app_state) : app_state :=
  {| app_session := app_session a; editor_value := editor_value a;
     currentDraft := currentDraft a; wordGoal_value := wordGoal_value a;
     timeGoal_value := timeGoal_value a;
     strictModeToggle_checked := strictModeToggle_checked a;
     emergencyInput_value := emergencyInput_value a;
     emergencyModal_hidden := emergencyModal_hidden a;
     goalBanner_visible := v;
     persistentExitBtn := persistentExitBtn a; screen := screen a;
     timers := timers a; next_timer := next_timer a |}.

Definition set_persistentExitBtn (v : bool) (a : app_state) : app_state :=
  {| app_session := app_session a; editor_value := editor_value a;
     currentDraft := currentDraft a; wordGoal_value := wordGoal_value a;
     timeGoal_value := timeGoal_value a;
     strictModeToggle_checked := strictModeToggle_checked a;
     emergencyInput_value := emergencyInput_value a;
     emergencyModal_hidden := emergencyModal_hidden a;
     goalBanner_visible := goalBanner_visible a;
     persistentExitBtn := v; screen := screen a;
     timers := timers a; next_timer := next_timer a |}.

Definition set_screen (v : screen_name) (a : app_state) : app_state :=
  {| app_session := app_session a; editor_value := editor_value a;
     currentDraft := currentDraft a; wordGoal_value := wordGoal_value a;
     timeGoal_value := timeGoal_value a;
     strictModeToggle_checked := strictModeToggle_checked a;
     emergencyInput_value := emergencyInput_value a;
     emergencyModal_hidden := emergencyModal_hidden a;
     goalBanner_visible := goalBanner_visible a;
     persistentExitBtn := persistentExitBtn a; screen := v;
     timers := timers a; next_timer := next_timer a |}.

Definition set_timers (t : gmap N timer_callback) (n : N) (a : app_state) : app_state :=
  {| app_session := app_session a; editor_value := editor_value a;
     currentDraft := currentDraft a; wordGoal_value := wordGoal_value a;
     timeGoal_value := timeGoal_value a;
     strictModeToggle_checked := strictModeToggle_checked a;
     emergencyInput_value := emergencyInput_value a;
     emergencyModal_hidden := emergencyModal_hidden a;
     goalBanner_visible := goalBanner_visible a;
     persistentExitBtn := persistentExitBtn a; screen := screen a;
     timers := t; next_timer := n |}.

Definition with_app (f : app_state -> app_state) (w : world) : world :=
  {| app := f (app w); main := main w; fs := fs w; out := out w |}.
Definition with_main (f : main_state -> main_state) (w : world) : world :=
  {| app := app w; main := f (main w); fs := fs w; out := out w |}.
Definition with_fs (f : disk -> disk) (w : world) : world :=
  {| app := app w; main := main w; fs := f (fs w); out := out w |}.
Definition with_out (f : list effect -> list effect) (w : world) : world :=
  {| app := app w; main := main w; fs := fs w; out := f (out w) |}.

(** ** Handlers as state transformers *)

Definition M (A : Type) : Type := world -> A * world.

#[global] Instance M_ret : MRet M := fun A x w => (x, w).
#[global] Instance M_bind : MBind M :=
  fun A B f m w => let '(x, w') := m w in f x w'.

Definition gets {A : Type} (f : world -> A) : M A := fun w => (f w, w).
Definition modify (f : world -> world) : M () := fun w => ((), f w).
Definition emit (e : effect) : M () := modify (with_out (fun l => l ++ [e])).
Definition skip : M () := mret ().
Definition exec {A : Type} (m : M A) (w : world) : world := (m w).2.

(** ** The main process *)

Module MainProcess.
Section WithHost.
Context `{Host}.

Definition set_window (win : option window) (m : main_state) : main_state :=
  {| mainWindow := win; isSessionActive := isSessionActive m;
     sessionConfig := sessionConfig m; lockdownInterval := lockdownInterval m;
     shortcutsRegistered := shortcutsRegistered m; dockHidden := dockHidden m |}.

Definition set_isSessionActive (v : bool) (m : main_state) : main_state :=
  {| mainWindow := mainWindow m; isSessionActive := v;
     sessionConfig := sessionConfig m; lockdownInterval := lockdownInterval m;
     shortcutsRegistered := shortcutsRegistered m; dockHidden := dockHidden m |}.

Definition set_sessionConfig (v : option session_config) (m : main_state) : main_state :=
  {| mainWindow := mainWindow m; isSessionActive := isSessionActive m;
     sessionConfig := v; lockdownInterval := lockdownInterval m;
     shortcutsRegistered := shortcutsRegistered m; dockHidden := dockHidden m |}.

Definition set_fullScreen (v : bool) (win : window) : window :=
  {| kiosk := kiosk win; fullScreen := v; alwaysOnTop := alwaysOnTop win;
     closable := closable win; minimizable := minimizable win;
     visibleOnAllWorkspaces := visibleOnAllWorkspaces win;
     menuBarVisible := menuBarVisible win |}.

(** The window as [enterLockdown] leaves it. *)
Definition locked_window : window :=
  {| kiosk := true; fullScreen := true; alwaysOnTop := true;
     closable := false; minimizable := false;
     visibleOnAllWorkspaces := true; menuBarVisible := false |}.

(** The window as [exitLockdown] and [showCompletion] leave it; the menu
    bar is not touched. *)
Definition released_window (win : window) : window :=
  {| kiosk := false; fullScreen := false; alwaysOnTop := false;
     closable := true; minimizable := true;
     visibleOnAllWorkspaces := false; menuBarVisible := menuBarVisible win |}.

(** [enterLockdown]: kiosk mode, the escape shortcuts taken over (the
    registration is best effort), and the 500 ms focus interval. *)
Definition enterLockdown : M () :=
  m ← gets main;
  match mainWindow m with
  | None => skip
  | Some _ =>
      modify (with_main (fun m =>
        {| mainWindow := Some locked_window; isSessionActive := true;
           sessionConfig := sessionConfig m; lockdownInterval := true;
           shortcutsRegistered := true;
           dockHidden := if platform_darwin then true else dockHidden m |}));;
      emit (ConsoleLog LockdownEngaged)
  end.

Definition release (msg : log_message) : M () :=
  m ← gets main;
  match mainWindow m with
  | None => skip
  | Some win =>
      modify (with_main (fun m =>
        {| mainWindow := Some (released_window win); isSessionActive := false;
           sessionConfig := sessionConfig m; lockdownInterval := false;
           shortcutsRegistered := false;
           dockHidden := if platform_darwin then false else dockHidden m |}));;
      emit (ConsoleLog msg)
  end.

Definition exitLockdown : M () := release LockdownDisengaged.
Definition showCompletion : M () := release GoalReachedLockdownReleased.

(** [sessionConfig && sessionConfig.strictMode !== false] *)
Definition strict_config (m : main_state) : bool :=
  match sessionConfig m with
  | Some config => cfg_strictMode config
  | None => false
  end.

(** The non-strict branch of the exits: the flag and the full screen. *)
Definition leave_fullscreen : M () :=
  modify (with_main (fun m =>
    set_window (set_fullScreen false <$> mainWindow m) (set_isSessionActive false m))).

(** [ipcMain.handle('start-session')] *)
Definition handle_start_session (config : session_config) : M () :=
  modify (with_main (set_sessionConfig (Some config)));;
  if cfg_strictMode config then enterLockdown
  else
    modify (with_main (fun m =>
      set_window (set_fullScreen true <$> mainWindow m) (set_isSessionActive true m))).

(** [ipcMain.handle('goal-reached')] *)
Definition handle_goal_reached : M () :=
  m ← gets main;
  if strict_config m then showCompletion
  else modify (with_main (set_isSessionActive false)).

(** [saveContent]: [true] is [{ success: true }]. *)
Definition saveContent (content : jsstring) : M bool :=
  d ← gets fs;
  if write_fails d CurrentTxt then
    emit (ConsoleLog ErrorSavingContent);; mret false
  else
    modify (with_fs (fun d =>
      {| current_txt := Some content; sessions_json := sessions_json d;
         drafts := drafts d; write_fails := write_fails d |}));;
    mret true.

(** [x || 0], [x || null] and [x || 'N/A'] on the fields of [stats]. *)
Definition nonzero (n : Z) : option Z := if n =? 0 then None else Some n.
Definition nonempty (s : jsstring) : option jsstring :=
  if falsy s then None else Some s.

(** [logSession] *)
Definition logSession (now : Z) (stats : session_stats) (draftPath : jsstring) : M () :=
  d ← gets fs;
  let sessions := default [] (sessions_json d) in
  let entry :=
    {| entry_date := toISOString now;
       entry_words := stats_words stats;
       entry_duration := nonempty (stats_duration stats);
       entry_goalType := Some (stats_goalType stats);
       entry_goalValue := nonzero (stats_goalValue stats);
       entry_completed := stats_completed stats;
       entry_draftPath := draftPath |} in
  if write_fails d SessionsJson then emit (ConsoleLog ErrorLoggingSession)
  else
    modify (with_fs (fun d =>
      {| current_txt := current_txt d;
         sessions_json := Some (sessions ++ [entry]);
         drafts := drafts d; write_fails := write_fails d |})).

(** [toISOString().replace(/[:.]/g, '-').slice(0, 19)] and [.txt] *)
Definition archive_name (now : Z) : jsstring :=
  take 19 (List.map (fun c => if ((c =? 58) || (c =? 46))%N then 45%N else c)
                    (toISOString now))
  ++ lit ".txt".

Definition newline : jsstring := [10%N].

(** The header of an archived draft. *)
Definition archive_header (now : Z) (stats : session_stats) : jsstring :=
  lit "# Focus Writer Pro Draft" ++ newline
  ++ lit "# Date: " ++ dateToLocaleString now ++ newline
  ++ lit "# Words: " ++ of_Z (stats_words stats) ++ newline
  ++ lit "# Session Duration: "
  ++ default (lit "N/A") (nonempty (stats_duration stats)) ++ newline
  ++ lit "# ---" ++ newline ++ newline.

(** [archiveDraft] *)
Definition archiveDraft (now : Z) (content : jsstring) (stats : session_stats) : M bool :=
  d ← gets fs;
  let filename := archive_name now in
  if write_fails d (DraftFile filename) then
    emit (ConsoleLog ErrorArchivingDraft);; mret false
  else
    modify (with_fs (fun d =>
      {| current_txt := current_txt d; sessions_json := sessions_json d;
         drafts := <[filename := archive_header now stats ++ content]> (drafts d);
         write_fails := write_fails d |}));;
    logSession now stats filename;;
    mret true.

(** The end of both exit handlers. *)
Definition leave_session : M () :=
  m ← gets main;
  (if strict_config m then exitLockdown else leave_fullscreen);;
  modify (with_main (set_sessionConfig None)).

(** [ipcMain.handle('end-session')] *)
Definition handle_end_session (now : Z) (content : jsstring) (stats : session_stats) : M () :=
  (if falsy content then skip
   else saveContent content;; archiveDraft now content stats;; skip);;
  leave_session.

(** [ipcMain.handle('emergency-exit')] *)
Definition handle_emergency_exit (content : jsstring) : M () :=
  (if falsy content then skip else saveContent content;; skip);;
  leave_session.

(** [ipcMain.handle('save-content')] *)
Definition handle_save_content (content : jsstring) : M bool := saveContent content.

(** [ipcMain.handle('load-draft')]: the content, [''] without a file. *)
Definition handle_load_draft : M jsstring :=
  d ← gets fs; mret (default [] (current_txt d)).

(** [mainWindow.on('close')]: [true] when the default is prevented; the
    exit warning is then sent to the renderer.  Otherwise the window
    closes and the ['closed'] handler runs. *)
Definition on_close : M bool :=
  m ← gets main;
  if isSessionActive m then
    emit ClosePrevented;; emit ShowExitWarning;; mret true
  else
    modify (with_main (fun m =>
      {| mainWindow := None; isSessionActive := isSessionActive m;
         sessionConfig := sessionConfig m; lockdownInterval := false;
         shortcutsRegistered := false; dockHidden := dockHidden m |}));;
    emit WindowClosed;; mret false.

End WithHost.
End MainProcess.

(** ** The preload bridge

    [preload.js] exposes [window.focusWriter] to the renderer, one function
    per IPC channel.  The members are those the renderer refers to. *)

Inductive focusWriter_member : Type :=
| member_startSession
| member_endSession
| member_emergencyExit
| member_goalReached
| member_saveContent
| member_loadDraft
| member_onShowExitWarning.

(** Whether [contextBridge.exposeInMainWorld('focusWriter', {...})] defines
    the member: the object literal has [startSession], [endSession],
    [emergencyExit], [saveContent], [loadDraft], [clearDraft],
    [loadSessions], [saveSettings], [loadSettings], [getDocumentsPath] and
    [onShowExitWarning]. *)
Definition exposed (m : focusWriter_member) : bool :=
  match m with
  | member_startSession => true
  | member_endSession => true
  | member_emergencyExit => true
  | member_goalReached => false
  | member_saveContent => true
  | member_loadDraft => true
  | member_onShowExitWarning => true
  end.

(** [window.focusWriter.m(...)]: an exposed member invokes its channel and
    the handler of the main process runs; calling a member that is not
    there throws a [TypeError], here [None]. *)
Definition invoke {A : Type} (m : focusWriter_member) (r : ipc_request)
    (handler : M A) : M (option A) :=
  if exposed m then emit (Invoke r);; x ← handler; mret (Some x)
  else mret None.

(** [await window.focusWriter.m(...)] outside of any [try]: an exception
    ends the [async] function. *)
Definition await {A : Type} (call : M (option A)) (k : A -> M ()) : M () :=
  r ← call;
  match r with
  | Some x => k x
  | None => skip
  end.

(** ** The renderer: [FocusWriterApp]

    The handlers of the class, on the session and on the values of the
    DOM that they read back.  What is only painted (the counters, the
    progress bar, the text of the save indicator) is left out; the width of
    the progress bar is kept as the function [progressPercent]. *)

Module Renderer.
Section WithHost.
Context `{Host}.

Definition MIN_WORDS : Z := 10.
Definition MAX_WORDS : Z := 50000.
Definition MIN_MINUTES : Z := 1.
Definition MAX_MINUTES : Z := 480.

Definition modify_session (f : session -> session) : M () :=
  modify (with_app (with_session f)).
Definition get_session : M session := gets (fun w => app_session (app w)).

(** [countWords] *)
Definition countWords (text : jsstring) : Z :=
  if falsy text || falsy (trim text) then 0
  else Z.of_nat (length (List.filter (fun word => (0 <? length word)%nat)
                                     (split_ws (trim text)))).

(** [formatTime]; [%] is the truncating remainder. *)
Definition formatTime (seconds : Z) : jsstring :=
  let hrs := seconds / 3600 in
  let mins := Z.rem seconds 3600 / 60 in
  let secs := Z.rem seconds 60 in
  if 0 <? hrs then
    of_Z hrs ++ lit ":" ++ padStart2 (of_Z mins) ++ lit ":" ++ padStart2 (of_Z secs)
  else padStart2 (of_Z mins) ++ lit ":" ++ padStart2 (of_Z secs).

(** The width that [updateProgress] gives the progress bar, in percent,
    as an exact rational. *)
Definition progressPercent (s : session) : Q :=
  match goalType s with
  | Words =>
      let wordsWritten := Z.max 0 (currentWordCount s - startWordCount s) in
      Qmin 100 (inject_Z wordsWritten / inject_Z (goalValue s) * 100)
  | Time =>
      let targetSeconds := goalValue s * 60 in
      Qmin 100 (inject_Z (elapsedSeconds s) / inject_Z targetSeconds * 100)
  end.

Definition setInterval (callback : timer_callback) : M N :=
  a ← gets app;
  let h := next_timer a in
  modify (with_app (set_timers (<[h := callback]> (timers a)) (N.succ h)));;
  mret h.

(** [clearInterval]; [null] and unknown handles are ignored. *)
Definition clearInterval (handle : option N) : M () :=
  match handle with
  | Some h =>
      modify (with_app (fun a => set_timers (delete h (timers a)) (next_timer a) a))
  | None => skip
  end.

Definition showScreen (name : screen_name) : M () :=
  modify (with_app (set_screen name)).
Definition showGoalBanner : M () := modify (with_app (set_goalBanner_visible true)).
Definition hideGoalBanner : M () := modify (with_app (set_goalBanner_visible false)).
Definition showPersistentExitButton : M () :=
  modify (with_app (set_persistentExitBtn true)).
Definition hidePersistentExitButton : M () :=
  modify (with_app (set_persistentExitBtn false)).
Definition showValidationError (message : jsstring) : M () :=
  emit (ValidationError message).

(** The validation of [startSession]: the message of the rejection, or
    the accepted [rawValue]. *)
Definition read_goal (a : app_state) : jsstring + Z :=
  match goalType (app_session a) with
  | Words =>
      match parseInt (wordGoal_value a) with
      | None =>
          inl (lit "Word goal must be at least " ++ of_Z MIN_WORDS ++ lit " words")
      | Some rawValue =>
          if rawValue <? MIN_WORDS then
            inl (lit "Word goal must be at least " ++ of_Z MIN_WORDS ++ lit " words")
          else if MAX_WORDS <? rawValue then
            inl (lit "Word goal cannot exceed " ++ numberToLocaleString MAX_WORDS
                 ++ lit " words")
          else inr rawValue
      end
  | Time =>
      match parseInt (timeGoal_value a) with
      | None =>
          inl (lit "Time goal must be at least " ++ of_Z MIN_MINUTES ++ lit " minute")
      | Some rawValue =>
          if rawValue <? MIN_MINUTES then
            inl (lit "Time goal must be at least " ++ of_Z MIN_MINUTES ++ lit " minute")
          else if MAX_MINUTES <? rawValue then
            inl (lit "Time goal cannot exceed " ++ of_Z MAX_MINUTES
                 ++ lit " minutes (8 hours)")
          else inr rawValue
      end
  end.

(** [autoSave] *)
Definition autoSave : M () :=
  s ← get_session;
  if negb (active s) && negb (goalCompleted s) then skip
  else
    content ← gets (fun w => editor_value (app w));
    await (invoke member_saveContent (SaveContentReq content)
                  (MainProcess.handle_save_content content))
      (fun success =>
         if success : bool then emit SaveIndicatorSaved else emit SaveErrorBanner).

(** [goalReached] *)
Definition goalReached : M () :=
  modify_session (set_active false);;
  modify_session (set_goalCompleted true);;
  s ← get_session;
  clearInterval (autoSaveInterval s);;
  autoSave;;
  r ← invoke member_goalReached GoalReachedReq MainProcess.handle_goal_reached;
  (match r with
   | Some _ => skip
   | None => emit (ConsoleLog FailedToReleaseLockdown)
   end);;
  s ← get_session;
  let wordsWritten := currentWordCount s - startWordCount s in
  let timeSpent := formatTime (elapsedSeconds s) in
  emit (GoalBanner
          (match goalType s with
           | Words =>
               lit "Goal reached! " ++ numberToLocaleString wordsWritten
               ++ lit " words in " ++ timeSpent ++ lit ". You're free to go."
           | Time =>
               lit "Session complete! " ++ numberToLocaleString wordsWritten
               ++ lit " words written. You're free to go."
           end));;
  showGoalBanner;;
  showPersistentExitButton;;
  emit CompletionSound.

(** [tick]; [now] is [Date.now()] and a [null] start time counts as 0. *)
Definition tick (now : Z) : M () :=
  s ← get_session;
  let actualElapsed := (now - default 0 (startTime s)) / 1000 in
  let timeDrift := actualElapsed - elapsedSeconds s in
  (if 5 <? timeDrift then emit (ConsoleLog (TimeJump timeDrift)) else skip);;
  modify_session (set_elapsedSeconds actualElapsed);;
  s ← get_session;
  if is_time (goalType s) && negb (goalTriggered s) then
    if goalValue s * 60 <=? elapsedSeconds s then
      modify_session (set_goalTriggered true);;
      goalReached
    else skip
  else skip.

(** [handleEditorInput] *)
Definition handleEditorInput : M () :=
  content ← gets (fun w => editor_value (app w));
  modify_session (set_currentWordCount (countWords content));;
  s ← get_session;
  if is_words (goalType s) && negb (goalTriggered s) then
    let wordsWritten := currentWordCount s - startWordCount s in
    if goalValue s <=? wordsWritten then
      modify_session (set_goalTriggered true);;
      goalReached
    else skip
  else skip.

(** The renderer's [loadDraft]. *)
Definition loadDraft : M () :=
  await (invoke member_loadDraft LoadDraftReq MainProcess.handle_load_draft)
    (fun content =>
       if falsy content || falsy (trim content) then
         modify (with_app (set_currentDraft []))
       else modify (with_app (set_currentDraft content))).

(** [startSession] *)
Definition startSession (now : Z) : M () :=
  a ← gets app;
  match read_goal a with
  | inl message => showValidationError message
  | inr rawValue =>
      modify_session (set_goalValue rawValue);;
      modify_session (set_strictMode (strictModeToggle_checked a));;
      modify (with_app (set_editor_value (currentDraft a)));;
      let startCount := countWords (currentDraft a) in
      modify_session (set_startWordCount startCount);;
      modify_session (set_currentWordCount startCount);;
      modify_session (set_startTime (Some now));;
      modify_session (set_elapsedSeconds 0);;
      modify_session (set_active true);;
      s ← get_session;
      let config :=
        {| cfg_goalType := goalType s; cfg_goalValue := goalValue s;
           cfg_strictMode := strictMode s |} in
      await (invoke member_startSession (StartSessionReq config)
                    (MainProcess.handle_start_session config))
        (fun _ =>
           showScreen WritingScreen;;
           h ← setInterval TickTimer;
           modify_session (set_timerInterval (Some h));;
           h ← setInterval AutoSaveTimer;
           modify_session (set_autoSaveInterval (Some h)))
  end.

(** [resetSession] *)
Definition resetSession : M () :=
  s ← get_session;
  clearInterval (timerInterval s);;
  clearInterval (autoSaveInterval s);;
  modify_session (fun _ => default_session);;
  hideGoalBanner;;
  hidePersistentExitButton.

(** [saveAndExit] *)
Definition saveAndExit (now : Z) : M () :=
  content ← gets (fun w => editor_value (app w));
  s ← get_session;
  let wordsWritten := currentWordCount s - startWordCount s in
  hideGoalBanner;;
  let stats :=
    {| stats_words := wordsWritten;
       stats_duration := formatTime (elapsedSeconds s);
       stats_goalType := goalType s;
       stats_goalValue := goalValue s;
       stats_completed := goalTriggered s |} in
  await (invoke member_endSession (EndSessionReq content stats)
                (MainProcess.handle_end_session now content stats))
    (fun _ =>
       resetSession;;
       loadDraft;;
       showScreen WelcomeScreen).

(** [keepWriting] *)
Definition keepWriting : M () :=
  s ← get_session;
  (match timerInterval s with
   | Some h => clearInterval (Some h);; modify_session (set_timerInterval None)
   | None => skip
   end);;
  s ← get_session;
  (match autoSaveInterval s with
   | Some h => clearInterval (Some h);; modify_session (set_autoSaveInterval None)
   | None => skip
   end);;
  s ← get_session;
  (if is_time (goalType s) then modify_session (set_goalValue (goalValue s + 10))
   else modify_session (set_goalValue (ceil_times_1_2 (goalValue s))));;
  modify_session (set_goalTriggered false);;
  modify_session (set_goalCompleted false);;
  modify_session (set_active true);;
  hideGoalBanner;;
  hidePersistentExitButton;;
  h ← setInterval TickTimer;
  modify_session (set_timerInterval (Some h));;
  h ← setInterval AutoSaveTimer;
  modify_session (set_autoSaveInterval (Some h));;
  showScreen WritingScreen.

Definition showEmergencyModal : M () :=
  modify (with_app (set_emergencyModal_hidden false));;
  modify (with_app (set_emergencyInput_value [])).

Definition hideEmergencyModal : M () :=
  modify (with_app (set_emergencyModal_hidden true)).

(** [handleGlobalKeydown] for the Escape key. *)
Definition handleGlobalKeydown_Escape : M () :=
  s ← get_session;
  if active s then showEmergencyModal else skip.

(** [emergencyExit] *)
Definition emergencyExit : M () :=
  s ← get_session;
  clearInterval (timerInterval s);;
  clearInterval (autoSaveInterval s);;
  content ← gets (fun w => editor_value (app w));
  await (invoke member_emergencyExit (EmergencyExitReq content)
                (MainProcess.handle_emergency_exit content))
    (fun _ =>
       hideEmergencyModal;;
       resetSession;;
       loadDraft;;
       showScreen WelcomeScreen).

(** The test of [checkEmergencyPhrase]. *)
Definition is_emergency_phrase (value : jsstring) : bool :=
  bool_decide (trim (toUpperCase value) = lit "I GIVE UP").

(** [checkEmergencyPhrase] *)
Definition checkEmergencyPhrase : M () :=
  value ← gets (fun w => emergencyInput_value (app w));
  if is_emergency_phrase value then emergencyExit else skip.

End WithHost.
End Renderer.

(** ** The browser edition: [FocusWriter] of [app.js] *)

Module WebApp.

(** [getWordCount], on the value of the editor. *)
Definition getWordCount (editor_value : jsstring) : Z :=
  let text := trim editor_value in
  if falsy text then 0
  else Z.of_nat (length (List.filter (fun word => (0 <? length word)%nat)
                                     (split_ws text))).

End WebApp.

(** ** The event loop *)

(** What the host delivers to the program: a registered interval fires, the
    user acts on a control, the window is asked to close.  The events that
    read the clock carry [Date.now()]. *)
Inductive event : Type :=
| TimerFired (handle : N) (now : Z)
| GoalTypeClicked (type : goal_type)
| WordGoalTyped (value : jsstring)
| TimeGoalTyped (value : jsstring)
| StrictModeToggled (checked : bool)
| StartClicked (now : Z)
| EditorInput (value : jsstring)
| SaveExitClicked (now : Z)
| KeepWritingClicked
| CloseBannerClicked
| EscapePressed
| EmergencyInput (value : jsstring)
| CancelEmergencyClicked
| CloseRequested.

Section EventLoop.
Context `{Host}.

(** The listeners of [bindEvents] and [init], the interval callbacks, and
    the ['close'] listener of the main window. *)
Definition step (e : event) : M () :=
  match e with
  | TimerFired handle now =>
      a ← gets app;
      match timers a !! handle with
      | Some TickTimer => Renderer.tick now
      | Some AutoSaveTimer => Renderer.autoSave
      | None => skip
      end
  | GoalTypeClicked type => Renderer.modify_session (set_goalType type)
  | WordGoalTyped value => modify (with_app (set_wordGoal_value value))
  | TimeGoalTyped value => modify (with_app (set_timeGoal_value value))
  | StrictModeToggled checked => modify (with_app (set_strictModeToggle_checked checked))
  | StartClicked now => Renderer.startSession now
  | EditorInput value =>
      modify (with_app (set_editor_value value));;
      Renderer.handleEditorInput
  | SaveExitClicked now => Renderer.saveAndExit now
  | KeepWritingClicked => Renderer.keepWriting
  | CloseBannerClicked => Renderer.hideGoalBanner
  | EscapePressed => Renderer.handleGlobalKeydown_Escape
  | EmergencyInput value =>
      modify (with_app (set_emergencyInput_value value));;
      Renderer.checkEmergencyPhrase
  | CancelEmergencyClicked => Renderer.hideEmergencyModal
  | CloseRequested =>
      prevented ← MainProcess.on_close;
      if prevented : bool then
        (if exposed member_onShowExitWarning then Renderer.showEmergencyModal else skip)
      else skip
  end.

Fixpoint run (es : list event) (w : world) : world :=
  match es with
  | [] => w
  | e :: rest => run rest (exec (step e) w)
  end.

(** How many times [goalReached] has run: it announces itself once. *)
Definition goal_announcements (w : world) : nat :=
  length (List.filter (fun e => match e with CompletionSound => true | _ => false end)
                      (out w)).

End EventLoop.

(** ** Initial states *)

(** The window that [createWindow] opens. *)
Definition fresh_window : window :=
  {| kiosk := false; fullScreen := false; alwaysOnTop := false;
     closable := true; minimizable := true;
     visibleOnAllWorkspaces := false; menuBarVisible := true |}.

Definition initial_main : main_state :=
  {| mainWindow := Some fresh_window; isSessionActive := false;
     sessionConfig := None; lockdownInterval := false;
     shortcutsRegistered := false; dockHidden := false |}.

(** The renderer before the user acts: the goal inputs hold what the user
    types and start empty here (the markup that gives them an initial value
    is not among the sources); the strict-mode toggle is checked, as
    [loadSettings] leaves it with the settings that [load-settings]
    returns by default. *)
Definition initial_app : app_state :=
  {| app_session := default_session;
     editor_value := [];
     currentDraft := [];
     wordGoal_value := [];
     timeGoal_value := [];
     strictModeToggle_checked := true;
     emergencyInput_value := [];
     emergencyModal_hidden := true;
     goalBanner_visible := false;
     persistentExitBtn := false;
     screen := WelcomeScreen;
     timers := ∅;
     next_timer := 1%N |}.

Definition empty_disk : disk :=
  {| current_txt := None; sessions_json := None; drafts := ∅;
     write_fails := fun _ => false |}.

(** The application once [init] has loaded the draft of disk [d]. *)
Definition boot `{Host} (d : disk) : world :=
  exec Renderer.loadDraft
       {| app := initial_app; main := initial_main; fs := d; out := [] |}.

(** A host for closed examples: it leaves non-ASCII letters alone, prints
    numbers without grouping and shows one fixed date. *)
Definition plain_host : Host :=
  {| unicodeUpper := fun s => s;
     toISOString := fun _ => lit "2024-05-01T09:30:00.000Z";
     dateToLocaleString := fun _ => lit "5/1/2024, 9:30:00 AM";
     numberToLocaleString := of_Z;
     platform_darwin := true |}.

(** ** Reference definitions *)

Abbreviation session_of w := (app_session (app w)).

(** The word count in the words of the specification: the text is cut at
    its runs of whitespace and the empty pieces are dropped, so a word is a
    maximal run of code units that are not whitespace, and it is counted
    where it starts: at a code unit that is not whitespace and that follows
    whitespace or the beginning of the text. *)
Fixpoint count_word_starts (after_ws : bool) (s : jsstring) : nat :=
  match s with
  | [] => 0
  | c :: rest =>
      if is_ws c then count_word_starts true rest
      else (if after_ws then 1 else 0) + count_word_starts false rest
  end%nat.

Definition word_count_spec (text : jsstring) : nat := count_word_starts true text.

(** The text ["a b\tc\n\nd"]. *)
Definition four_words : jsstring :=
  lit "a b" ++ [9%N] ++ lit "c" ++ [10%N; 10%N] ++ lit "d".

(** [pieces.filter(word => word.length > 0).length] *)
Definition nonempty_pieces (l : list jsstring) : nat :=
  length (List.filter (fun word => (0 <? length word)%nat) l).

(** The goal tests of the source: [wordsWritten >= goalValue] in
    [handleEditorInput] and [elapsedSeconds >= goalValue * 60] in [tick]. *)
Definition goal_met (s : session) : bool :=
  match goalType s with
  | Words => goalValue s <=? currentWordCount s - startWordCount s
  | Time => goalValue s * 60 <=? elapsedSeconds s
  end.

(** The events of a running session that are not a decision of the user on
    the session: an interval fires or the text changes. *)
Definition automatic (e : event) : bool :=
  match e with
  | TimerFired _ _ | EditorInput _ => true
  | _ => false
  end.

(** Whether event [e] makes the program evaluate the goal of the session
    of [w]: a change of the text for a word goal, a tick for a time
    goal. *)
Definition evaluates (e : event) (w : world) : bool :=
  match e with
  | EditorInput _ => is_words (goalType (app_session (app w)))
  | TimerFired h _ =>
      is_time (goalType (app_session (app w)))
      && match timers (app w) !! h with Some TickTimer => true | _ => false end
  | _ => false
  end.

(** The goal fraction has reached 1.0: the progress bar is full. *)
Definition bar_full (s : session) : bool :=
  Qeq_bool (Renderer.progressPercent s) 100.

Section Observers.
Context `{Host}.

(** Whether the goal fraction is found at 1.0 at one of the evaluations
    along the events [es] from [w]. *)
Fixpoint reached_along (es : list event) (w : world) : bool :=
  match es with
  | [] => false
  | e :: rest =>
      let w' := exec (step e) w in
      evaluates e w && bar_full (app_session (app w')) || reached_along rest w'
  end.

End Observers.

(** The console entry of [tick] for a suspension, and a state without
    these entries. *)
Definition is_time_jump (e : effect) : bool :=
  match e with
  | ConsoleLog (TimeJump _) => true
  | _ => false
  end.

Definition without_time_jumps (w : world) : world :=
  with_out (List.filter (fun e => negb (is_time_jump e))) w.

Definition with_elapsed (e : Z) (w : world) : world :=
  with_app (with_session (set_elapsedSeconds e)) w.

Definition with_strict (b : bool) (w : world) : world :=
  with_app (with_session (set_strictMode b)) w.

(** The effects that a step added to the log of [w]. *)
Definition new_effects (w w' : world) : list effect :=
  drop (length (out w)) (out w').

Definition is_invoke (e : effect) : bool :=
  match e with
  | Invoke _ => true
  | _ => false
  end.

Definition is_save_request (e : effect) : bool :=
  match e with
  | Invoke (SaveContentReq _) => true
  | _ => false
  end.

Definition is_validation_error (e : effect) : bool :=
  match e with
  | ValidationError _ => true
  | _ => false
  end.

(** The state [w] after a rejection: the message is shown and nothing else
    has changed. *)
Definition rejected (message : jsstring) (w : world) : world :=
  with_out (fun l => l ++ [ValidationError message]) w.

Definition is_storage_error (e : effect) : bool :=
  match e with
  | ConsoleLog ErrorSavingContent | ConsoleLog ErrorArchivingDraft
  | ConsoleLog ErrorLoggingSession => true
  | _ => false
  end.

Section AsSpecified.
Context `{Host}.


(** The wording of the specification for the emergency exit: the current
    content is persisted, without archive and history entry, the lockdown
    is released and the session is reset. *)
Definition emergency_exit_persists (w : world) (value : jsstring) : Prop :=
  let w' := exec (step (EmergencyInput value)) w in
  Renderer.is_emergency_phrase value = true ->
  current_txt (fs w') = Some (editor_value (app w))
  /\ drafts (fs w') = drafts (fs w)
  /\ sessions_json (fs w') = sessions_json (fs w)
  /\ isSessionActive (main w') = false
  /\ app_session (app w') = default_session.

(** The wording of the specification for keep-writing: the goal grows,
    the latch is cleared, and a lockdown is requested again exactly for a
    strict session.  A request is an invocation of a channel of the main
    process. *)
Definition keepWriting_reengages (w : world) : Prop :=
  let s := app_session (app w) in
  let w' := exec Renderer.keepWriting w in
  goalValue (app_session (app w'))
  = match goalType s with
    | Time => goalValue s + 10
    | Words => (6 * goalValue s + 4) / 5
    end
  /\ goalTriggered (app_session (app w')) = false
  /\ (strictMode s = true
      <-> exists request, In (Invoke request) (new_effects w w')).

(** The wording of the specification for the close event of a session
    that is not strict: the window is free to close. *)
Definition nonstrict_close_allowed (w : world) : Prop :=
  strictMode (app_session (app w)) = false ->
  phase_of (app_session (app w)) = Active ->
  ~ In ClosePrevented (new_effects w (exec (step CloseRequested) w)).

End AsSpecified.

(** [clearInterval] on the table of intervals. *)
Definition without_timer (handle : option N) (t : gmap N timer_callback) :
    gmap N timer_callback :=
  match handle with
  | Some h => delete h t
  | None => t
  end.

(** The events of the goal logic: those of [automatic], keep-writing and
    the dismissal of the banner. *)
Definition goal_logic (e : event) : bool :=
  match e with
  | TimerFired _ _ | EditorInput _ | KeepWritingClicked | CloseBannerClicked => true
  | _ => false
  end.

(** ** Sample sessions

    Closed states for the examples, on the host [plain_host]. *)

(** A text of [n] words. *)
Definition words (n : nat) : jsstring := List.concat (repeat (lit "ab ") n).

(** A strict session with a goal of ten words, started at time 0 on an
    empty disk. *)
Definition ten_words_session : world :=
  run (H := plain_host) [WordGoalTyped (lit "10"); StartClicked 0]
      (boot (H := plain_host) empty_disk).

(** The text grows to ten words, shrinks to three and grows again. *)
Definition dip_and_rise : list event :=
  [EditorInput (words 9); TimerFired 1 1000; EditorInput (words 10);
   EditorInput (words 3); TimerFired 2 10000; EditorInput (words 12)].

(** A strict session with a goal of 25 minutes, started at time 0. *)
Definition pomodoro_session : world :=
  run (H := plain_host)
      [GoalTypeClicked Time; TimeGoalTyped (lit "25"); StartClicked 0]
      (boot (H := plain_host) empty_disk).

(** A strict session with a goal of one minute in which nothing is typed;
    the tick of the sixtieth second has fired. *)
Definition silent_minute : world :=
  run (H := plain_host)
      [GoalTypeClicked Time; TimeGoalTyped (lit "1"); StartClicked 0;
       TimerFired 1 60000]
      (boot (H := plain_host) empty_disk).

(** Ten words typed in a session with a goal of ten words. *)
Definition ten_words_typed : world :=
  run (H := plain_host) [EditorInput (words 10)] ten_words_session.

(** A disk with a draft, and a strict session on it in which the user has
    deleted the whole text and opened the emergency dialog. *)
Definition old_draft_disk : disk :=
  {| current_txt := Some (lit "an old draft"); sessions_json := None;
     drafts := ∅; write_fails := fun _ => false |}.

Definition text_deleted : world :=
  run (H := plain_host)
      [WordGoalTyped (lit "500"); StartClicked 0; EditorInput []; EscapePressed]
      (boot (H := plain_host) old_draft_disk).

(** The same session with its text kept. *)
Definition text_kept : world :=
  run (H := plain_host) [WordGoalTyped (lit "500"); StartClicked 0; EscapePressed]
      (boot (H := plain_host) old_draft_disk).

(** A session that is not strict, just started. *)
Definition relaxed_session : world :=
  run (H := plain_host)
      [StrictModeToggled false; WordGoalTyped (lit "500"); StartClicked 0]
      (boot (H := plain_host) empty_disk).

(** The events that bring a strict session of one minute to its goal. *)
Definition one_minute_reached : list event :=
  [GoalTypeClicked Time; TimeGoalTyped (lit "1"); StartClicked 0;
   TimerFired 1 60000].

(** Ten words reach the goal, the user keeps writing, and exits before the
    new goal of twelve words. *)
Definition reached_then_left : world :=
  run (H := plain_host) [KeepWritingClicked; SaveExitClicked 90000] ten_words_typed.

(** ** The stored data and the welcome screen

    The members of [window.focusWriter] that only read and write the
    stored data, the handlers of their channels, and the controls of the
    welcome screen and of the editor that use them. *)

Inductive storage_member : Type :=
| member_clearDraft
| member_loadSessions
| member_saveSettings
| member_loadSettings
| member_getDocumentsPath.

(** All of them are in the object literal of [preload.js]. *)
Definition storage_exposed (m : storage_member) : bool :=
  match m with
  | member_clearDraft => true
  | member_loadSessions => true
  | member_saveSettings => true
  | member_loadSettings => true
  | member_getDocumentsPath => true
  end.

(** [window.focusWriter.m(...)] for these members; [None] is the
    [TypeError] of a member that is not there. *)
Definition call {A : Type} (m : storage_member) (handler : M A) : M (option A) :=
  if storage_exposed m then x ← handler; mret (Some x) else mret None.

Module MainStorage.
Section WithHost.
Context `{Host}.

(** [ipcMain.handle('clear-draft')]: [true] is [{ success: true }].  An
    [unlinkSync] that throws is a failed write of [current.txt]. *)
Definition handle_clear_draft : M bool :=
  d ← gets fs;
  match current_txt d with
  | None => mret true
  | Some _ =>
      if write_fails d CurrentTxt then mret false
      else
        modify (with_fs (fun d =>
          {| current_txt := None; sessions_json := sessions_json d;
             drafts := drafts d; write_fails := write_fails d |}));;
        mret true
  end.

(** [ipcMain.handle('load-sessions')]: the entries, none without a file. *)
Definition handle_load_sessions : M (list session_entry) :=
  d ← gets fs; mret (default [] (sessions_json d)).

(** [process.on('uncaughtException')] *)
Definition on_uncaughtException : M () :=
  m ← gets main;
  if isSessionActive m then MainProcess.exitLockdown else skip.

End WithHost.
End MainStorage.

Module Welcome.
Section WithHost.
Context `{Host}.

(** [String(value)] for the result of [parseInt], as the assignment to
    [input.value] converts it. *)
Definition string_of_number (value : option Z) : jsstring :=
  match value with
  | Some n => of_Z n
  | None => lit "NaN"
  end.

(** [handlePresetClick]; [dataset_value] is [btn.dataset.value]. *)
Definition handlePresetClick (dataset_value : jsstring) : M () :=
  let value := parseInt dataset_value in
  s ← Renderer.get_session;
  if is_words (goalType s) then
    modify (with_app (set_wordGoal_value (string_of_number value)))
  else modify (with_app (set_timeGoal_value (string_of_number value))).

(** The preview of [showDraftSection]. *)
Definition draft_preview (content : jsstring) : jsstring :=
  trim (take 200 content) ++ (if (200 <? length content)%nat then lit "..." else []).

(** [showNoDraftSection] *)
Definition showNoDraftSection : M () := modify (with_app (set_currentDraft [])).

(** [confirmStartFresh] *)
Definition confirmStartFresh : M () :=
  a ← gets app;
  let clear :=
    await (call member_clearDraft MainStorage.handle_clear_draft)
      (fun _ =>
         modify (with_app (set_currentDraft []));;
         showNoDraftSection) in
  if falsy (currentDraft a) then clear
  else
    await (invoke member_saveContent (SaveContentReq (currentDraft a))
                  (MainProcess.handle_save_content (currentDraft a)))
      (fun _ => clear).

(** The numbers that [displaySessionStats] shows: the total of the words,
    the number of sessions and the number of completed sessions. *)
Definition displaySessionStats (sessions : list session_entry) : Z * nat * nat :=
  (fold_left (fun sum s => sum + entry_words s) sessions 0,
   length sessions,
   length (List.filter entry_completed sessions)).

(** [loadSessionHistory]: what is shown, [None] when the line of the
    statistics is left as it is. *)
Definition loadSessionHistory : M (option (Z * nat * nat)) :=
  r ← call member_loadSessions MainStorage.handle_load_sessions;
  match r with
  | Some (e :: sessions) => mret (Some (displaySessionStats (e :: sessions)))
  | _ => mret None
  end.

End WithHost.
End Welcome.

Module Editor.
Section WithHost.
Context `{Host}.

(** [value.substring(0, start) + '\t' + value.substring(end)] *)
Definition insert_tab (selectionStart selectionEnd : nat) (value : jsstring) : jsstring :=
  take selectionStart value ++ [9%N] ++ drop selectionEnd value.

(** [handleEditorKeydown] for the Tab key. *)
Definition handleEditorKeydown_Tab (selectionStart selectionEnd : nat) : M () :=
  value ← gets (fun w => editor_value (app w));
  modify (with_app (set_editor_value (insert_tab selectionStart selectionEnd value)));;
  Renderer.handleEditorInput.

(** The text that [updateProgress] writes under the bar. *)
Definition progressText (s : session) : jsstring :=
  match goalType s with
  | Words =>
      let wordsWritten := Z.max 0 (currentWordCount s - startWordCount s) in
      numberToLocaleString wordsWritten ++ lit " / "
      ++ numberToLocaleString (goalValue s) ++ lit " words"
  | Time =>
      let targetSeconds := goalValue s * 60 in
      let remaining := Z.max 0 (targetSeconds - elapsedSeconds s) in
      Renderer.formatTime remaining ++ lit " remaining"
  end.

End WithHost.
End Editor.

(** ** The whole event loop

    The events of [event] and those of the controls above. *)
Inductive action : Type :=
| Core (e : event)
| PresetClicked (dataset_value : jsstring)
| TabPressed (selectionStart selectionEnd : nat)
| StartFreshConfirmed
| UncaughtException.

Section WholeLoop.
Context `{Host}.

Definition act (a : action) : M () :=
  match a with
  | Core e => step e
  | PresetClicked dataset_value => Welcome.handlePresetClick dataset_value
  | TabPressed selectionStart selectionEnd =>
      Editor.handleEditorKeydown_Tab selectionStart selectionEnd
  | StartFreshConfirmed => Welcome.confirmStartFresh
  | UncaughtException => MainStorage.on_uncaughtException
  end.

Fixpoint play (acts : list action) (w : world) : world :=
  match acts with
  | [] => w
  | a :: rest => play rest (exec (act a) w)
  end.

End WholeLoop.


(** No registered interval has a handle that [setInterval] has yet to
    give out. *)
Definition handles_fresh (a : app_state) : Prop :=
  forall h c, timers a !! h = Some c -> (h < next_timer a)%N.

(** What every step keeps: the goal is positive, a completed goal has its
    latch set, and the handles of the intervals are below the next one. *)
Definition well_formed (w : world) : Prop :=
  0 < goalValue (session_of w)
  /\ (goalCompleted (session_of w) = true -> goalTriggered (session_of w) = true)
  /\ handles_fresh (app w).


(** What the welcome screen offers as the draft to continue when
    [current.txt] is [file]: its content, unless that is only
    whitespace. *)
Definition offered_draft (file : option jsstring) : jsstring :=
  let content := default [] file in
  if forallb is_ws content then [] else content.


(** Whether the text [s], read after whitespace or not ([b]), ends in
    whitespace; the beginning of a text counts as whitespace. *)
Fixpoint after_ws (b : bool) (s : jsstring) : bool :=
  match s with
  | [] => b
  | c :: rest => after_ws (is_ws c) rest
  end.

(** ** The settings

    [loadSettings], [saveSettings], [toggleTheme] and [applyTheme] of the
    renderer with the channels [load-settings] and [save-settings].  The
    values of the keys are strings and a boolean; a key that is missing
    is [None]. *)
Module Settings.

Record settings : Type := {
  theme : option jsstring;
  fontSize : option jsstring;
  fontFamily : option jsstring;
  strictMode : option bool
}.

(** [settings.json]: missing, not parsable, or an object. *)
Inductive settings_file : Type :=
| NoFile
| Unreadable
| Stored (s : settings).

(** [this.settings], the strict-mode toggle, the attribute [data-theme] of
    the body, and the file; [write_fails] tells that writing the file
    throws. *)
Record state : Type := {
  this_settings : settings;
  strictModeToggle_checked : bool;
  data_theme : option jsstring;
  settings_json : settings_file;
  write_fails : bool
}.

(** [this.settings] of the constructor. *)
Definition constructor_settings : settings :=
  {| theme := Some (lit "dark"); fontSize := Some (lit "medium");
     fontFamily := Some (lit "serif"); strictMode := None |}.

(** What [load-settings] returns without a file. *)
Definition default_settings : settings :=
  {| theme := Some (lit "dark"); fontSize := Some (lit "medium");
     fontFamily := Some (lit "serif"); strictMode := Some true |}.

(** [ipcMain.handle('load-settings')]: [None] is [{ success: false }]. *)
Definition handle_load_settings (file : settings_file) : option settings :=
  match file with
  | NoFile => Some default_settings
  | Unreadable => None
  | Stored s => Some s
  end.

(** [ipcMain.handle('save-settings')]: the file afterwards. *)
Definition handle_save_settings (s : settings) (st : state) : settings_file :=
  if write_fails st then settings_json st else Stored s.

(** [{ ...a, ...b }] *)
Definition spread (a b : settings) : settings :=
  {| theme := match theme b with Some v => Some v | None => theme a end;
     fontSize := match fontSize b with Some v => Some v | None => fontSize a end;
     fontFamily := match fontFamily b with Some v => Some v | None => fontFamily a end;
     strictMode := match strictMode b with Some v => Some v | None => strictMode a end |}.

(** [loadSettings]; the toggle gets [this.settings.strictMode !== false]. *)
Definition loadSettings (st : state) : state :=
  match handle_load_settings (settings_json st) with
  | Some stored =>
      let merged := spread (this_settings st) stored in
      {| this_settings := merged;
         strictModeToggle_checked :=
           match strictMode merged with Some false => false | _ => true end;
         data_theme := data_theme st;
         settings_json := settings_json st;
         write_fails := write_fails st |}
  | None => st
  end.

(** [saveSettings] *)
Definition saveSettings (st : state) : state :=
  let s :=
    {| theme := theme (this_settings st); fontSize := fontSize (this_settings st);
       fontFamily := fontFamily (this_settings st);
       strictMode := Some (strictModeToggle_checked st) |} in
  {| this_settings := s;
     strictModeToggle_checked := strictModeToggle_checked st;
     data_theme := data_theme st;
     settings_json := handle_save_settings s st;
     write_fails := write_fails st |}.

(** [applyTheme] *)
Definition applyTheme (st : state) : state :=
  {| this_settings := this_settings st;
     strictModeToggle_checked := strictModeToggle_checked st;
     data_theme := theme (this_settings st);
     settings_json := settings_json st;
     write_fails := write_fails st |}.

(** [toggleTheme] *)
Definition toggleTheme (st : state) : state :=
  let new_theme :=
    if bool_decide (theme (this_settings st) = Some (lit "dark")) then lit "light"
    else lit "dark" in
  saveSettings
    (applyTheme
       {| this_settings :=
            {| theme := Some new_theme; fontSize := fontSize (this_settings st);
               fontFamily := fontFamily (this_settings st);
               strictMode := strictMode (this_settings st) |};
          strictModeToggle_checked := strictModeToggle_checked st;
          data_theme := data_theme st;
          settings_json := settings_json st;
          write_fails := write_fails st |}).

(** The settings part of [init] on a fresh renderer: the toggle is
    [checked] and the body has the attribute [attribute] in the markup. *)
Definition launch (checked : bool) (attribute : option jsstring)
    (file : settings_file) (fails : bool) : state :=
  applyTheme
    (loadSettings
       {| this_settings := constructor_settings;
          strictModeToggle_checked := checked;
          data_theme := attribute;
          settings_json := file;
          write_fails := fails |}).

End Settings.

(** ** The browser edition: the timed session of [app.js]

    The class [FocusWriter] with its countdown: the start from the
    settings panel, the tick, the end of the session, the session kept in
    [localStorage] and restored at the next load, and the emergency exit.
    The painting of the timer, of the progress bar and of the lock screen
    is left out, as is the storage of the text. *)
Module WebEdition.

(** The object that [saveSession] stores under [focuswriter_session]. *)
Record session_data : Type := {
  duration : Z;
  remaining : Z;
  strict : bool;
  startWords : Z;
  timestamp : Z
}.

(** What the page shows on top of the document. *)
Inductive notice : Type :=
| Alert (message : jsstring)
| Notification (message : jsstring)
| CompletionTone.

(** The page: the values of the controls, the two panels, the fields of
    the object, the intervals of the window, and [localStorage]: the item
    of the session, which is one that [saveSession] wrote, and
    [setItem_throws], which tells that [setItem] throws. *)
Record page : Type := {
  editor : jsstring;
  hoursInput : jsstring;
  minutesInput : jsstring;
  strictMode : bool;
  emergencyInput : jsstring;
  settingsPanel_hidden : bool;
  emergencyExit_hidden : bool;
  timerInterval : option N;
  sessionActive : bool;
  sessionDuration : Z;
  timeRemaining : Z;
  isStrictMode : bool;
  startWordCount : Z;
  intervals : gset N;
  next_interval : N;
  session_item : option session_data;
  setItem_throws : bool;
  notices : list notice
}.

Definition set_editor (v : jsstring) (p : page) : page :=
  {| editor := v; hoursInput := hoursInput p; minutesInput := minutesInput p;
     strictMode := strictMode p; emergencyInput := emergencyInput p;
     settingsPanel_hidden := settingsPanel_hidden p;
     emergencyExit_hidden := emergencyExit_hidden p;
     timerInterval := timerInterval p; sessionActive := sessionActive p;
     sessionDuration := sessionDuration p; timeRemaining := timeRemaining p;
     isStrictMode := isStrictMode p; startWordCount := startWordCount p;
     intervals := intervals p; next_interval := next_interval p;
     session_item := session_item p; setItem_throws := setItem_throws p;
     notices := notices p |}.

Definition set_hoursInput (v : jsstring) (p : page) : page :=
  {| editor := editor p; hoursInput := v; minutesInput := minutesInput p;
     strictMode := strictMode p; emergencyInput := emergencyInput p;
     settingsPanel_hidden := settingsPanel_hidden p;
     emergencyExit_hidden := emergencyExit_hidden p;
     timerInterval := timerInterval p; sessionActive := sessionActive p;
     sessionDuration := sessionDuration p; timeRemaining := timeRemaining p;
     isStrictMode := isStrictMode p; startWordCount := startWordCount p;
     intervals := intervals p; next_interval := next_interval p;
     session_item := session_item p; setItem_throws := setItem_throws p;
     notices := notices p |}.

Definition set_minutesInput (v : jsstring) (p : page) : page :=
  {| editor := editor p; hoursInput := hoursInput p; minutesInput := v;
     strictMode := strictMode p; emergencyInput := emergencyInput p;
     settingsPanel_hidden := settingsPanel_hidden p;
     emergencyExit_hidden := emergencyExit_hidden p;
     timerInterval := timerInterval p; sessionActive := sessionActive p;
     sessionDuration := sessionDuration p; timeRemaining := timeRemaining p;
     isStrictMode := isStrictMode p; startWordCount := startWordCount p;
     intervals := intervals p; next_interval := next_interval p;
     session_item := session_item p; setItem_throws := setItem_throws p;
     notices := notices p |}.

Definition set_strictMode (v : bool) (p : page) : page :=
  {| editor := editor p; hoursInput := hoursInput p;
     minutesInput := minutesInput p; strictMode := v;
     emergencyInput := emergencyInput p;
     settingsPanel_hidden := settingsPanel_hidden p;
     emergencyExit_hidden := emergencyExit_hidden p;
     timerInterval := timerInterval p; sessionActive := sessionActive p;
     sessionDuration := sessionDuration p; timeRemaining := timeRemaining p;
     isStrictMode := isStrictMode p; startWordCount := startWordCount p;
     intervals := intervals p; next_interval := next_interval p;
     session_item := session_item p; setItem_throws := setItem_throws p;
     notices := notices p |}.

Definition set_emergencyInput (v : jsstring) (p : page) : page :=
  {| editor := editor p; hoursInput := hoursInput p;
     minutesInput := minutesInput p; strictMode := strictMode p;
     emergencyInput := v; settingsPanel_hidden := settingsPanel_hidden p;
     emergencyExit_hidden := emergencyExit_hidden p;
     timerInterval := timerInterval p; sessionActive := sessionActive p;
     sessionDuration := sessionDuration p; timeRemaining := timeRemaining p;
     isStrictMode := isStrictMode p; startWordCount := startWordCount p;
     intervals := intervals p; next_interval := next_interval p;
     session_item := session_item p; setItem_throws := setItem_throws p;
     notices := notices p |}.

Definition set_settingsPanel_hidden (v : bool) (p : page) : page :=
  {| editor := editor p; hoursInput := hoursInput p;
     minutesInput := minutesInput p; strictMode := strictMode p;
     emergencyInput := emergencyInput p; settingsPanel_hidden := v;
     emergencyExit_hidden := emergencyExit_hidden p;
     timerInterval := timerInterval p; sessionActive := sessionActive p;
     sessionDuration := sessionDuration p; timeRemaining := timeRemaining p;
     isStrictMode := isStrictMode p; startWordCount := startWordCount p;
     intervals := intervals p; next_interval := next_interval p;
     session_item := session_item p; setItem_throws := setItem_throws p;
     notices := notices p |}.

Definition set_emergencyExit_hidden (v : bool) (p : page) : page :=
  {| editor := editor p; hoursInput := hoursInput p;
     minutesInput := minutesInput p; strictMode := strictMode p;
     emergencyInput := emergencyInput p;
     settingsPanel_hidden := settingsPanel_hidden p;
     emergencyExit_hidden := v; timerInterval := timerInterval p;
     sessionActive := sessionActive p; sessionDuration := sessionDuration p;
     timeRemaining := timeRemaining p; isStrictMode := isStrictMode p;
     startWordCount := startWordCount p; intervals := intervals p;
     next_interval := next_interval p; session_item := session_item p;
     setItem_throws := setItem_throws p; notices := notices p |}.

Definition set_timerInterval (v : option N) (p : page) : page :=
  {| editor := editor p; hoursInput := hoursInput p;
     minutesInput := minutesInput p; strictMode := strictMode p;
     emergencyInput := emergencyInput p;
     settingsPanel_hidden := settingsPanel_hidden p;
     emergencyExit_hidden := emergencyExit_hidden p; timerInterval := v;
     sessionActive := sessionActive p; sessionDuration := sessionDuration p;
     timeRemaining := timeRemaining p; isStrictMode := isStrictMode p;
     startWordCount := startWordCount p; intervals := intervals p;
     next_interval := next_interval p; session_item := session_item p;
     setItem_throws := setItem_throws p; notices := notices p |}.

Definition set_sessionActive (v : bool) (p : page) : page :=
  {| editor := editor p; hoursInput := hoursInput p;
     minutesInput := minutesInput p; strictMode := strictMode p;
     emergencyInput := emergencyInput p;
     settingsPanel_hidden := settingsPanel_hidden p;
     emergencyExit_hidden := emergencyExit_hidden p;
     timerInterval := timerInterval p; sessionActive := v;
     sessionDuration := sessionDuration p; timeRemaining := timeRemaining p;
     isStrictMode := isStrictMode p; startWordCount := startWordCount p;
     intervals := intervals p; next_interval := next_interval p;
     session_item := session_item p; setItem_throws := setItem_throws p;
     notices := notices p |}.

Definition set_sessionDuration (v : Z) (p : page) : page :=
  {| editor := editor p; hoursInput := hoursInput p;
     minutesInput := minutesInput p; strictMode := strictMode p;
     emergencyInput := emergencyInput p;
     settingsPanel_hidden := settingsPanel_hidden p;
     emergencyExit_hidden := emergencyExit_hidden p;
     timerInterval := timerInterval p; sessionActive := sessionActive p;
     sessionDuration := v; timeRemaining := timeRemaining p;
     isStrictMode := isStrictMode p; startWordCount := startWordCount p;
     intervals := intervals p; next_interval := next_interval p;
     session_item := session_item p; setItem_throws := setItem_throws p;
     notices := notices p |}.

Definition set_timeRemaining (v : Z) (p : page) : page :=
  {| editor := editor p; hoursInput := hoursInput p;
     minutesInput := minutesInput p; strictMode := strictMode p;
     emergencyInput := emergencyInput p;
     settingsPanel_hidden := settingsPanel_hidden p;
     emergencyExit_hidden := emergencyExit_hidden p;
     timerInterval := timerInterval p; sessionActive := sessionActive p;
     sessionDuration := sessionDuration p; timeRemaining := v;
     isStrictMode := isStrictMode p; startWordCount := startWordCount p;
     intervals := intervals p; next_interval := next_interval p;
     session_item := session_item p; setItem_throws := setItem_throws p;
     notices := notices p |}.

Definition set_isStrictMode (v : bool) (p : page) : page :=
  {| editor := editor p; hoursInput := hoursInput p;
     minutesInput := minutesInput p; strictMode := strictMode p;
     emergencyInput := emergencyInput p;
     settingsPanel_hidden := settingsPanel_hidden p;
     emergencyExit_hidden := emergencyExit_hidden p;
     timerInterval := timerInterval p; sessionActive := sessionActive p;
     sessionDuration := sessionDuration p; timeRemaining := timeRemaining p;
     isStrictMode := v; startWordCount := startWordCount p;
     intervals := intervals p; next_interval := next_interval p;
     session_item := session_item p; setItem_throws := setItem_throws p;
     notices := notices p |}.

Definition set_startWordCount (v : Z) (p : page) : page :=
  {| editor := editor p; hoursInput := hoursInput p;
     minutesInput := minutesInput p; strictMode := strictMode p;
     emergencyInput := emergencyInput p;
     settingsPanel_hidden := settingsPanel_hidden p;
     emergencyExit_hidden := emergencyExit_hidden p;
     timerInterval := timerInterval p; sessionActive := sessionActive p;
     sessionDuration := sessionDuration p; timeRemaining := timeRemaining p;
     isStrictMode := isStrictMode p; startWordCount := v;
     intervals := intervals p; next_interval := next_interval p;
     session_item := session_item p; setItem_throws := setItem_throws p;
     notices := notices p |}.

Definition set_intervals (v : gset N) (p : page) : page :=
  {| editor := editor p; hoursInput := hoursInput p;
     minutesInput := minutesInput p; strictMode := strictMode p;
     emergencyInput := emergencyInput p;
     settingsPanel_hidden := settingsPanel_hidden p;
     emergencyExit_hidden := emergencyExit_hidden p;
     timerInterval := timerInterval p; sessionActive := sessionActive p;
     sessionDuration := sessionDuration p; timeRemaining := timeRemaining p;
     isStrictMode := isStrictMode p; startWordCount := startWordCount p;
     intervals := v; next_interval := next_interval p;
     session_item := session_item p; setItem_throws := setItem_throws p;
     notices := notices p |}.

Definition set_next_interval (v : N) (p : page) : page :=
  {| editor := editor p; hoursInput := hoursInput p;
     minutesInput := minutesInput p; strictMode := strictMode p;
     emergencyInput := emergencyInput p;
     settingsPanel_hidden := settingsPanel_hidden p;
     emergencyExit_hidden := emergencyExit_hidden p;
     timerInterval := timerInterval p; sessionActive := sessionActive p;
     sessionDuration := sessionDuration p; timeRemaining := timeRemaining p;
     isStrictMode := isStrictMode p; startWordCount := startWordCount p;
     intervals := intervals p; next_interval := v;
     session_item := session_item p; setItem_throws := setItem_throws p;
     notices := notices p |}.

Definition set_session_item (v : option session_data) (p : page) : page :=
  {| editor := editor p; hoursInput := hoursInput p;
     minutesInput := minutesInput p; strictMode := strictMode p;
     emergencyInput := emergencyInput p;
     settingsPanel_hidden := settingsPanel_hidden p;
     emergencyExit_hidden := emergencyExit_hidden p;
     timerInterval := timerInterval p; sessionActive := sessionActive p;
     sessionDuration := sessionDuration p; timeRemaining := timeRemaining p;
     isStrictMode := isStrictMode p; startWordCount := startWordCount p;
     intervals := intervals p; next_interval := next_interval p;
     session_item := v; setItem_throws := setItem_throws p;
     notices := notices p |}.

Definition set_notices (v : list notice) (p : page) : page :=
  {| editor := editor p; hoursInput := hoursInput p;
     minutesInput := minutesInput p; strictMode := strictMode p;
     emergencyInput := emergencyInput p;
     settingsPanel_hidden := settingsPanel_hidden p;
     emergencyExit_hidden := emergencyExit_hidden p;
     timerInterval := timerInterval p; sessionActive := sessionActive p;
     sessionDuration := sessionDuration p; timeRemaining := timeRemaining p;
     isStrictMode := isStrictMode p; startWordCount := startWordCount p;
     intervals := intervals p; next_interval := next_interval p;
     session_item := session_item p; setItem_throws := setItem_throws p;
     notices := v |}.

Section WithHost.
Context `{Host}.

(** [getWordCount] *)
Definition getWordCount (p : page) : Z := WebApp.getWordCount (editor p).

Definition setInterval (p : page) : N * page :=
  let h := next_interval p in
  (h, set_next_interval (N.succ h) (set_intervals ({[h]} ∪ intervals p) p)).

(** [clearInterval]; [null] and unknown handles are ignored. *)
Definition clearInterval (handle : option N) (p : page) : page :=
  match handle with
  | Some h => set_intervals (intervals p ∖ {[h]}) p
  | None => p
  end.

Definition notify (n : notice) (p : page) : page := set_notices (notices p ++ [n]) p.

(** [saveSession]; [None] is the exception of [setItem]. *)
Definition saveSession (now : Z) (p : page) : option page :=
  if setItem_throws p then None
  else
    Some (set_session_item
            (Some {| duration := sessionDuration p; remaining := timeRemaining p;
                     strict := isStrictMode p; startWords := startWordCount p;
                     timestamp := now |}) p).

(** [endSession] *)
Definition endSession (p : page) : page :=
  let p := clearInterval (timerInterval p) p in
  let p := set_sessionActive false p in
  let p := set_session_item None p in
  let p := set_emergencyExit_hidden true p in
  let wordsWritten := getWordCount p - startWordCount p in
  let p :=
    notify (Notification (lit "Session complete! You wrote " ++ of_Z wordsWritten
                          ++ lit " words.")) p in
  notify CompletionTone p.

(** [tick]; an exception of [saveSession] ends the callback. *)
Definition tick (now : Z) (p : page) : page :=
  let p := set_timeRemaining (timeRemaining p - 1) p in
  match saveSession now p with
  | None => p
  | Some p => if timeRemaining p <=? 0 then endSession p else p
  end.

(** [parseInt(value) || 0] *)
Definition parseInt_or_zero (value : jsstring) : Z := default 0 (parseInt value).

(** [startTimedSession]; an exception of [saveSession] ends the handler. *)
Definition startTimedSession (now : Z) (p : page) : page :=
  let hours := parseInt_or_zero (hoursInput p) in
  let minutes := parseInt_or_zero (minutesInput p) in
  let totalSeconds := (hours * 60 + minutes) * 60 in
  if totalSeconds <? 60 then
    notify (Alert (lit "Please set at least 1 minute for your session.")) p
  else
    let p := set_sessionDuration totalSeconds p in
    let p := set_timeRemaining totalSeconds p in
    let p := set_isStrictMode (strictMode p) p in
    let p := set_startWordCount (getWordCount p) p in
    let p := set_sessionActive true p in
    match saveSession now p with
    | None => p
    | Some p =>
        let p := set_settingsPanel_hidden true p in
        let '(h, p) := setInterval p in
        set_timerInterval (Some h) p
    end.

(** [restoreSession]; [hoursSince > 24] compares the milliseconds with
    those of a day. *)
Definition restoreSession (now : Z) (p : page) : page :=
  match session_item p with
  | None => p
  | Some session =>
      if 24 * (1000 * 60 * 60) <? now - timestamp session then set_session_item None p
      else
        let secondsPassed := (now - timestamp session) / 1000 in
        let adjustedRemaining := remaining session - secondsPassed in
        if 0 <? adjustedRemaining then
          let p := set_sessionDuration (duration session) p in
          let p := set_timeRemaining adjustedRemaining p in
          let p := set_isStrictMode (strict session) p in
          let p := set_startWordCount (startWords session) p in
          let p := set_sessionActive true p in
          let '(h, p) := setInterval p in
          set_timerInterval (Some h) p
        else set_session_item None p
  end.

(** [showEmergencyExit] and [hideEmergencyExit] *)
Definition showEmergencyExit (p : page) : page :=
  set_emergencyInput [] (set_emergencyExit_hidden false p).
Definition hideEmergencyExit (p : page) : page :=
  set_emergencyInput [] (set_emergencyExit_hidden true p).

(** [checkEmergencyExit] *)
Definition checkEmergencyExit (p : page) : page :=
  if bool_decide (toUpperCase (emergencyInput p) = lit "EMERGENCY EXIT")
  then endSession p else p.

(** [handleGlobalKeydown] for the Escape key. *)
Definition handleGlobalKeydown_Escape (p : page) : page :=
  if sessionActive p && isStrictMode p then showEmergencyExit p else p.

(** The listener of [beforeunload]: whether leaving is held back. *)
Definition beforeunload_prevented (p : page) : bool :=
  sessionActive p && isStrictMode p.

(** [openSettings] and [closeSettingsPanel] *)
Definition openSettings (p : page) : page :=
  if sessionActive p then p else set_settingsPanel_hidden false p.
Definition closeSettingsPanel (p : page) : page := set_settingsPanel_hidden true p.

(** The listener of a preset button; [dataset_minutes] is
    [btn.dataset.minutes]. *)
Definition presetClicked (dataset_minutes : jsstring) (p : page) : page :=
  match parseInt dataset_minutes with
  | Some minutes =>
      set_minutesInput (of_Z (Z.rem minutes 60)) (set_hoursInput (of_Z (minutes / 60)) p)
  | None => set_minutesInput (lit "NaN") (set_hoursInput (lit "NaN") p)
  end.

(** The object after the constructor, in a document whose panels are
    hidden, with the values that the browser gives the controls. *)
Definition constructed (editor_value hours minutes : jsstring) (checked : bool)
    (item : option session_data) (throws : bool) (shown : list notice) : page :=
  {| editor := editor_value; hoursInput := hours; minutesInput := minutes;
     strictMode := checked; emergencyInput := [];
     settingsPanel_hidden := true; emergencyExit_hidden := true;
     timerInterval := None; sessionActive := false; sessionDuration := 0;
     timeRemaining := 0; isStrictMode := true; startWordCount := 0;
     intervals := ∅; next_interval := 1%N;
     session_item := item; setItem_throws := throws; notices := shown |}.

(** The page once [init] has run at time [now]. *)
Definition loaded (now : Z) (editor_value hours minutes : jsstring) (checked : bool)
    (item : option session_data) (throws : bool) : page :=
  restoreSession now (constructed editor_value hours minutes checked item throws []).

(** What the host delivers to the page.  A reload carries the clock and
    what the new document starts with: the text that [loadContent] puts
    into the editor and the values of the controls. *)
Inductive web_event : Type :=
| IntervalFired (handle : N) (now : Z)
| EditorTyped (value : jsstring)
| TimerButtonClicked
| CloseSettingsClicked
| HoursTyped (value : jsstring)
| MinutesTyped (value : jsstring)
| StrictModeChanged (checked : bool)
| PresetClicked (dataset_minutes : jsstring)
| StartSessionClicked (now : Z)
| EscapePressed
| EmergencyTyped (value : jsstring)
| CancelEmergencyClicked
| Reloaded (now : Z) (editor_value hours minutes : jsstring) (checked : bool).

(** The listeners of [bindEvents], the interval callback, and [init] for
    a reload.  The controls of the settings panel and of the emergency
    dialog receive their events only while their panel is shown. *)
Definition web_step (e : web_event) (p : page) : page :=
  match e with
  | IntervalFired handle now =>
      if bool_decide (handle ∈ intervals p) then tick now p else p
  | EditorTyped value => set_editor value p
  | TimerButtonClicked => openSettings p
  | CloseSettingsClicked =>
      if settingsPanel_hidden p then p else closeSettingsPanel p
  | HoursTyped value =>
      if settingsPanel_hidden p then p else set_hoursInput value p
  | MinutesTyped value =>
      if settingsPanel_hidden p then p else set_minutesInput value p
  | StrictModeChanged checked =>
      if settingsPanel_hidden p then p else set_strictMode checked p
  | PresetClicked dataset_minutes =>
      if settingsPanel_hidden p then p else presetClicked dataset_minutes p
  | StartSessionClicked now =>
      if settingsPanel_hidden p then p else startTimedSession now p
  | EscapePressed => handleGlobalKeydown_Escape p
  | EmergencyTyped value =>
      if emergencyExit_hidden p then p
      else checkEmergencyExit (set_emergencyInput value p)
  | CancelEmergencyClicked =>
      if emergencyExit_hidden p then p else hideEmergencyExit p
  | Reloaded now editor_value hours minutes checked =>
      restoreSession now
        (constructed editor_value hours minutes checked (session_item p)
                     (setItem_throws p) (notices p))
  end.

Fixpoint web_run (es : list web_event) (p : page) : page :=
  match es with
  | [] => p
  | e :: rest => web_run rest (web_step e p)
  end.

(** The countdown and the page agree: a session that is active has its
    one interval, time left and the settings panel closed; an idle page
    has no interval; and the emergency dialog is shown only in a strict
    session. *)
Definition consistent (p : page) : Prop :=
  (if sessionActive p then
     (exists h, timerInterval p = Some h /\ intervals p = {[h]})
     /\ 0 < timeRemaining p /\ settingsPanel_hidden p = true
   else intervals p = ∅)
  /\ (emergencyExit_hidden p = false ->
      sessionActive p = true /\ isStrictMode p = true).

(** The events of the user that are neither the countdown nor a reload. *)
Definition user_action (e : web_event) : bool :=
  match e with
  | IntervalFired _ _ | Reloaded _ _ _ _ _ => false
  | _ => true
  end.

(** A session of one minute, started at time 0 from the settings panel on
    an empty page, strict or not. *)
Definition one_minute_session (checked : bool) : list web_event :=
  [TimerButtonClicked; MinutesTyped (lit "1"); StrictModeChanged checked;
   StartSessionClicked 0].

Definition empty_page : page := loaded 0 [] [] [] true None false.

End WithHost.

End WebEdition.
(** ** Proof support *)

(** Unfolds the handlers and the state plumbing, and nothing of the string
    and number functions: what is left branches on the tests of the
    source. *)
Ltac run_handlers :=
  cbv beta iota zeta delta
    [exec mbind M_bind mret M_ret gets modify emit skip invoke await exposed
     step
     Renderer.tick Renderer.handleEditorInput Renderer.goalReached
     Renderer.autoSave Renderer.startSession Renderer.resetSession
     Renderer.saveAndExit Renderer.keepWriting Renderer.emergencyExit
     Renderer.checkEmergencyPhrase Renderer.loadDraft Renderer.read_goal
     Renderer.MIN_WORDS Renderer.MAX_WORDS Renderer.MIN_MINUTES
     Renderer.MAX_MINUTES
     Renderer.showEmergencyModal Renderer.hideEmergencyModal
     Renderer.handleGlobalKeydown_Escape
     Renderer.modify_session Renderer.get_session Renderer.setInterval
     Renderer.clearInterval Renderer.showScreen Renderer.showGoalBanner
     Renderer.hideGoalBanner Renderer.showPersistentExitButton
     Renderer.hidePersistentExitButton Renderer.showValidationError
     MainProcess.handle_start_session MainProcess.handle_goal_reached
     MainProcess.handle_end_session MainProcess.handle_emergency_exit
     MainProcess.handle_save_content MainProcess.handle_load_draft
     MainProcess.saveContent MainProcess.archiveDraft MainProcess.logSession
     MainProcess.leave_session MainProcess.leave_fullscreen
     MainProcess.enterLockdown MainProcess.exitLockdown
     MainProcess.showCompletion MainProcess.release MainProcess.on_close
     MainProcess.strict_config MainProcess.set_window
     MainProcess.set_isSessionActive MainProcess.set_sessionConfig
     stats_words stats_duration stats_goalType stats_goalValue
     stats_completed
     with_app with_main with_fs with_out with_session
     set_active set_goalType set_goalValue set_strictMode set_startTime
     set_startWordCount set_currentWordCount set_timerInterval
     set_autoSaveInterval set_elapsedSeconds set_goalTriggered
     set_goalCompleted set_editor_value set_currentDraft set_wordGoal_value
     set_timeGoal_value set_strictModeToggle_checked
     set_emergencyInput_value set_emergencyModal_hidden
     set_goalBanner_visible set_persistentExitBtn set_screen set_timers
     app main fs out
     app_session editor_value currentDraft wordGoal_value timeGoal_value
     strictModeToggle_checked emergencyInput_value emergencyModal_hidden
     goalBanner_visible persistentExitBtn screen timers next_timer
     active goalType goalValue strictMode startTime startWordCount
     currentWordCount timerInterval autoSaveInterval elapsedSeconds
     goalTriggered goalCompleted
     mainWindow isSessionActive sessionConfig lockdownInterval
     shortcutsRegistered dockHidden
     current_txt sessions_json drafts write_fails
     cfg_goalType cfg_goalValue cfg_strictMode
     falsy is_time is_words negb andb orb fst snd].

(** Case analysis on a test of the source that blocks the computation. *)
Ltac split_test :=
  match goal with
  | |- context [match ?x with _ => _ end] =>
      lazymatch x with
      | context [match _ with _ => _ end] => fail
      | _ => destruct x eqn:?
      end
  end.

(** The fields of the records, for [cbn]. *)
Ltac project :=
  cbn [app main fs out
       app_session editor_value currentDraft wordGoal_value timeGoal_value
       strictModeToggle_checked emergencyInput_value emergencyModal_hidden
       goalBanner_visible persistentExitBtn screen timers next_timer
       active goalType goalValue strictMode startTime startWordCount
       currentWordCount timerInterval autoSaveInterval elapsedSeconds
       goalTriggered goalCompleted
       mainWindow isSessionActive sessionConfig lockdownInterval
       shortcutsRegistered dockHidden
       current_txt sessions_json drafts write_fails
       cfg_goalType cfg_goalValue cfg_strictMode] in *.

(** Opens the state [w] into its fields. *)
Ltac open_world w :=
  let a := fresh "a" in
  let s := fresh "s" in
  let m := fresh "m" in
  let d := fresh "d" in
  destruct w as [a m d ?]; destruct a as [s ? ? ? ? ? ? ? ? ? ? ? ?];
  destruct s; destruct m; destruct d; project; subst.

Ltac crunch := run_handlers; repeat (split_test; run_handlers).

Ltac count_announcements :=
  unfold goal_announcements; cbn [out];
  rewrite ?List.filter_app, ?length_app; cbn [List.filter length]; try lia.

(** The effects added to a log [o]: computes [new_effects] once the final
    log is [o] followed by explicit effects. *)
Ltac added_effects :=
  unfold new_effects; cbn [out];
  rewrite <- ?app_assoc; rewrite ?drop_app_length, ?drop_all;
  cbn [List.app List.filter is_time_jump is_invoke is_save_request
       is_validation_error is_storage_error negb].

(** Boolean comparisons of the context as propositions. *)
Ltac to_arith :=
  repeat match goal with
  | H : (_ <? _) = true |- _ => apply Z.ltb_lt in H
  | H : (_ <? _) = false |- _ => apply Z.ltb_ge in H
  | H : (_ <=? _) = true |- _ => apply Z.leb_le in H
  | H : (_ <=? _) = false |- _ => apply Z.leb_gt in H
  | H : (_ =? _) = true |- _ => apply Z.eqb_eq in H
  | H : (_ =? _) = false |- _ => apply Z.eqb_neq in H
  end.

(** Lookups in a table of intervals after [clearInterval]. *)
Ltac cleared :=
  repeat (rewrite lookup_delete; case_decide; try reflexivity);
  try congruence.

(** * Properties *)

(** ** Strings *)

Section StringFacts.

Lemma dropWhile_ws_split (s : jsstring) :
  exists w, forallb is_ws w = true /\ s = w ++ dropWhile is_ws s.
Proof.
  induction s as [|c s [w [Hw Hs]]]; simpl.
  - exists []. split; reflexivity.
  - destruct (is_ws c) eqn:Hc.
    + exists (c :: w). simpl. rewrite Hc, Hw. split; [reflexivity | congruence].
    + exists []. split; reflexivity.
Qed.

Lemma trimEnd_split (s : jsstring) :
  exists w, forallb is_ws w = true /\ s = trimEnd s ++ w.
Proof.
  unfold trimEnd. destruct (dropWhile_ws_split (rev s)) as [w [Hw Hs]].
  exists (rev w). split.
  - rewrite forallb_forall in *. intros x Hx. apply Hw. now apply in_rev.
  - rewrite <- rev_app_distr, <- Hs. symmetry. apply rev_involutive.
Qed.

Lemma count_word_starts_ws (b : bool) (w : jsstring) :
  forallb is_ws w = true -> count_word_starts b w = 0%nat.
Proof.
  revert b. induction w as [|c w IH]; intros b Hw; simpl in *.
  - reflexivity.
  - apply andb_true_iff in Hw as [Hc Hw]. rewrite Hc. now apply IH.
Qed.

Lemma count_word_starts_app_ws (b : bool) (s w : jsstring) :
  forallb is_ws w = true ->
  count_word_starts b (s ++ w) = count_word_starts b s.
Proof.
  intros Hw. revert b. induction s as [|c s IH]; intros b; simpl.
  - now apply count_word_starts_ws.
  - destruct (is_ws c); now rewrite IH.
Qed.

Lemma count_word_starts_trimStart (s : jsstring) :
  count_word_starts true (trimStart s) = count_word_starts true s.
Proof.
  unfold trimStart. induction s as [|c s IH]; simpl.
  - reflexivity.
  - destruct (is_ws c) eqn:Hc; simpl; [exact IH | now rewrite Hc].
Qed.

Lemma word_count_trim (s : jsstring) :
  word_count_spec (trim s) = word_count_spec s.
Proof.
  unfold word_count_spec, trim.
  rewrite <- (count_word_starts_trimStart s).
  destruct (trimEnd_split (trimStart s)) as [w [Hw Hs]].
  rewrite Hs at 2. now rewrite count_word_starts_app_ws.
Qed.

Lemma count_word_starts_pos (s : jsstring) :
  forallb is_ws s = false -> (0 < count_word_starts true s)%nat.
Proof.
  induction s as [|c s IH]; simpl; [discriminate|].
  destruct (is_ws c); simpl; [exact IH | lia].
Qed.

Lemma split_go_pieces (s : jsstring) :
  nonempty_pieces (split_go true [] s) = count_word_starts true s
  /\ forall cur,
       nonempty_pieces (split_go false cur s)
       = match cur with
         | [] => count_word_starts true s
         | _ :: _ => S (count_word_starts false s)
         end.
Proof.
  unfold nonempty_pieces.
  induction s as [|c s [IHa IHb]]; simpl.
  - split; [reflexivity|]. intros [|x cur]; [reflexivity|].
    simpl. rewrite length_app. simpl.
    replace (0 <? length (rev cur) + 1)%nat with true; [reflexivity|].
    symmetry. apply Nat.ltb_lt. lia.
  - destruct (is_ws c) eqn:Hc.
    + split; [exact IHa|]. intros [|x cur]; simpl.
      * exact IHa.
      * rewrite length_app. simpl.
        replace (0 <? length (rev cur) + 1)%nat with true.
        -- simpl. now rewrite IHa.
        -- symmetry. apply Nat.ltb_lt. lia.
    + split.
      * now rewrite IHb.
      * intros [|x cur]; now rewrite IHb.
Qed.

Lemma split_ws_pieces (s : jsstring) :
  nonempty_pieces (split_ws s) = word_count_spec s.
Proof. exact (proj2 (split_go_pieces s) []). Qed.

Lemma word_count_spec_falsy (s : jsstring) :
  falsy s = true -> word_count_spec s = 0%nat.
Proof. destruct s; [reflexivity | discriminate]. Qed.

Lemma countWords_refines (text : jsstring) :
  Renderer.countWords text = Z.of_nat (word_count_spec text).
Proof.
  unfold Renderer.countWords.
  destruct (falsy text) eqn:Ht; simpl.
  - now rewrite word_count_spec_falsy.
  - rewrite <- (word_count_trim text).
    destruct (falsy (trim text)) eqn:Htt.
    + now rewrite word_count_spec_falsy.
    + f_equal. apply split_ws_pieces.
Qed.

Lemma getWordCount_refines (text : jsstring) :
  WebApp.getWordCount text = Z.of_nat (word_count_spec text).
Proof.
  unfold WebApp.getWordCount. rewrite <- (word_count_trim text).
  destruct (falsy (trim text)) eqn:Htt.
  - now rewrite word_count_spec_falsy.
  - f_equal. apply split_ws_pieces.
Qed.

End StringFacts.

(** ** Numbers *)

Section NumberFacts.

Lemma ceil_div_unique (R P k : Z) :
  0 < P -> (k - 1) * P < R <= k * P -> - ((- R) / P) = k.
Proof.
  intros HP [Hlo Hhi].
  assert (Hq : (- R) / P = - k); [|lia].
  symmetry. apply (Z.div_unique_pos (- R) P (- k) (k * P - R)); lia.
Qed.

Lemma round53_grid (n : Z) :
  0 < n -> Z.log2 n - 52 <= 0 /\ round53 n = n
  \/ exists s q r,
       0 < s /\ s = Z.log2 n - 52 /\ 2 ^ s * 2 ^ 52 <= n /\ n = 2 ^ s * q + r
       /\ 0 <= r < 2 ^ s
       /\ (round53 n = q * 2 ^ s /\ 2 * r <= 2 ^ s
           \/ round53 n = (q + 1) * 2 ^ s /\ 2 ^ s <= 2 * r).
Proof.
  intros Hn. unfold round53.
  destruct (Z.leb_spec (Z.log2 n - 52) 0) as [Hs|Hs]; [left; split; [lia | reflexivity]|].
  right. set (s := Z.log2 n - 52) in *.
  assert (Hp : 0 < 2 ^ s) by (apply Z.pow_pos_nonneg; lia).
  assert (Hlog : 2 ^ s * 2 ^ 52 <= n).
  { rewrite <- Z.pow_add_r by lia. replace (s + 52) with (Z.log2 n) by (unfold s; lia).
    apply Z.log2_spec. lia. }
  exists s, (n / 2 ^ s), (n mod 2 ^ s).
  pose proof (Z.div_mod n (2 ^ s) ltac:(lia)) as Hdm.
  pose proof (Z.mod_pos_bound n (2 ^ s) Hp) as Hmod.
  split; [lia|]. split; [reflexivity|]. split; [exact Hlog|].
  split; [exact Hdm|]. split; [exact Hmod|]. clear Hlog.
  set (p := 2 ^ s) in *. set (r := n mod p) in *. set (q := n / p) in *.
  clearbody p r q.
  destruct (Z.ltb_spec p (2 * r)) as [H1|H1]; cbn [orb andb].
  - right. split; [reflexivity | lia].
  - destruct (Z.eqb_spec p (2 * r)) as [H2|H2]; cbn [orb andb].
    + destruct (Z.odd q); [right | left]; split; try reflexivity; lia.
    + left. split; [reflexivity | lia].
Qed.

Lemma ceil_times_1_2_exact (g : Z) :
  0 <= g < 2 ^ 50 -> ceil_times_1_2 g = (6 * g + 4) / 5.
Proof.
  intros [Hg0 Hg].
  destruct (Z.eq_dec g 0) as [->|Hnz]; [reflexivity|].
  unfold ceil_times_1_2.
  replace (Z.sgn g) with 1 by (symmetry; apply Z.sgn_pos; lia).
  rewrite Z.abs_eq, Z.mul_1_l by lia.
  set (k := (6 * g + 4) / 5).
  assert (Hk : 5 * k <= 6 * g + 4 < 5 * k + 5).
  { unfold k. pose proof (Z.div_mod (6 * g + 4) 5 ltac:(lia)) as Hd.
    pose proof (Z.mod_pos_bound (6 * g + 4) 5 ltac:(lia)). lia. }
  clearbody k.
  set (n := g * mant_1_2).
  assert (Hn : 5 * n = 6 * g * 2 ^ 52 - g) by (unfold n, mant_1_2; lia).
  clearbody n.
  change (2 ^ 50) with 1125899906842624 in Hg.
  change (2 ^ 52) with 4503599627370496 in Hn |- *.
  apply ceil_div_unique; [lia|].
  destruct (round53_grid n ltac:(lia)) as [[_ ->]|(s & q & r & Hs & Hsl & Hpow & Hqr & Hr & Hround)];
    [lia|].
  change (2 ^ 52) with 4503599627370496 in Hpow.
  assert (Hs50 : s <= 50).
  { assert (Z.log2 n < 103); [|lia].
    apply Z.log2_lt_pow2; [lia|]. change (2 ^ 103) with 10141204801825835211973625643008. lia. }
  assert (Hm : 4503599627370496 = 2 ^ s * 2 ^ (52 - s)).
  { rewrite <- Z.pow_add_r by lia. replace (s + (52 - s)) with 52 by lia. reflexivity. }
  assert (Hp : 0 < 2 ^ s) by (apply Z.pow_pos_nonneg; lia).
  assert (Hm0 : 0 < 2 ^ (52 - s)) by (apply Z.pow_pos_nonneg; lia).
  set (p := 2 ^ s) in *. set (m := 2 ^ (52 - s)) in *. clearbody p m.
  destruct Hround as [[-> Hhalf]|[-> Hhalf]].
  - split; nia.
  - split; [nia|].
    assert (q < k * m) by nia.
    nia.
Qed.

End NumberFacts.

(** C9. For every string, [countWords] (and [getWordCount] of the browser
    edition) counts the pieces between runs of whitespace, empty pieces
    dropped; the empty string and the strings of whitespace only have 0
    words, and ["a b\tc\n\nd"] has 4. *)
Theorem countWords_whitespace_runs :
  (forall text, Renderer.countWords text = Z.of_nat (word_count_spec text))
  /\ (forall text, WebApp.getWordCount text = Renderer.countWords text)
  /\ Renderer.countWords [] = 0
  /\ (forall text,
        if forallb is_ws text then Renderer.countWords text = 0
        else 0 < Renderer.countWords text)
  /\ Renderer.countWords (lit "   ") = 0
  /\ Renderer.countWords four_words = 4.
Proof.
  split; [exact countWords_refines|].
  split; [intros; now rewrite getWordCount_refines, countWords_refines|].
  split; [reflexivity|].
  split.
  - intros text. rewrite countWords_refines.
    destruct (forallb is_ws text) eqn:Hw.
    + unfold word_count_spec. now rewrite count_word_starts_ws.
    + pose proof (count_word_starts_pos text Hw). unfold word_count_spec. lia.
  - split; reflexivity.
Qed.

(** ** The handlers *)

Section HandlerFacts.
Context `{Host}.

Lemma announcements_out (w w' : world) :
  out w' = out w -> goal_announcements w' = goal_announcements w.
Proof. unfold goal_announcements. now intros ->. Qed.

(** [goalReached] flips the two flags of the session, leaves the main
    process as it is and announces itself once. *)
Lemma goalReached_session (w : world) :
  session_of (exec Renderer.goalReached w)
  = set_goalCompleted true (set_active false (session_of w)).
Proof. open_world w. crunch; reflexivity. Qed.

Lemma goalReached_main (w : world) :
  main (exec Renderer.goalReached w) = main w.
Proof. open_world w. crunch; reflexivity. Qed.

Lemma goalReached_announces (w : world) :
  goal_announcements (exec Renderer.goalReached w) = S (goal_announcements w).
Proof. open_world w. crunch; count_announcements. Qed.

(** With the latch set, no interval and no change of the text runs
    [goalReached]. *)
Lemma step_latched (e : event) (w : world) :
  automatic e = true ->
  goalTriggered (session_of w) = true ->
  goalTriggered (session_of (exec (step e) w)) = true
  /\ goal_announcements (exec (step e) w) = goal_announcements w.
Proof.
  intros He Hl. destruct e; try discriminate He; open_world w.
  - crunch; split; try reflexivity; count_announcements.
  - crunch; split; try reflexivity; count_announcements.
Qed.

Lemma full_bar_iff (a g : Z) :
  0 < g -> (Qmin 100 (inject_Z a / inject_Z g * 100) == 100)%Q <-> g <= a.
Proof.
  intros Hg. rewrite Q.min_l_iff.
  destruct g as [|p|p]; try lia.
  unfold Qle, Qdiv, Qmult, Qinv, inject_Z. cbn [Qnum Qden].
  rewrite ?Pos2Z.inj_mul. lia.
Qed.

(** For a positive goal the bar is full exactly when the test of the
    source holds. *)
Lemma bar_full_goal_met (s : session) :
  0 < goalValue s -> bar_full s = goal_met s.
Proof.
  intros Hg. apply eq_true_iff_eq. unfold bar_full.
  rewrite Qeq_bool_iff. unfold Renderer.progressPercent, goal_met.
  destruct (goalType s).
  - rewrite full_bar_iff by assumption. rewrite Z.leb_le. lia.
  - rewrite full_bar_iff by lia. now rewrite Z.leb_le.
Qed.

(** With the latch clear, [goalReached] runs exactly when the event
    evaluates the goal and finds it met; the phase moves to GoalReached
    then and stays what it was otherwise. *)
Lemma step_clear (e : event) (w : world) :
  automatic e = true ->
  goalTriggered (session_of w) = false ->
  let w' := exec (step e) w in
  let fired := evaluates e w && goal_met (session_of w') in
  goalTriggered (session_of w') = fired
  /\ goal_announcements w'
     = (goal_announcements w + if fired then 1 else 0)%nat
  /\ phase_of (session_of w')
     = if fired then GoalReached else phase_of (session_of w).
Proof.
  intros He Hl. destruct e; try discriminate He; open_world w.
  - unfold evaluates, goal_met, phase_of.
    crunch; repeat split; try reflexivity; count_announcements.
  - unfold evaluates, goal_met, phase_of.
    crunch; repeat split; try reflexivity; count_announcements.
Qed.

(** The goal itself is not touched by these events. *)
Lemma step_automatic_goal (e : event) (w : world) :
  automatic e = true ->
  goalValue (session_of (exec (step e) w)) = goalValue (session_of w)
  /\ goalType (session_of (exec (step e) w)) = goalType (session_of w).
Proof.
  intros He. destruct e; try discriminate He; open_world w.
  - crunch; split; reflexivity.
  - crunch; split; reflexivity.
Qed.

Lemma run_latched (es : list event) (w : world) :
  forallb automatic es = true ->
  goalTriggered (session_of w) = true ->
  goalTriggered (session_of (run es w)) = true
  /\ goal_announcements (run es w) = goal_announcements w.
Proof.
  revert w. induction es as [|e es IH]; intros w Hes Hl;
    cbn [run forallb] in *.
  - split; [assumption | reflexivity].
  - apply andb_true_iff in Hes as [He Hes].
    destruct (step_latched e w He Hl) as [Hl' Hn].
    destruct (IH _ Hes Hl') as [Hl'' Hn'].
    split; [assumption | congruence].
Qed.

Lemma run_clear (es : list event) (w : world) :
  forallb automatic es = true ->
  goalTriggered (session_of w) = false ->
  0 < goalValue (session_of w) ->
  goalTriggered (session_of (run es w)) = reached_along es w
  /\ goal_announcements (run es w)
     = (goal_announcements w + if reached_along es w then 1 else 0)%nat.
Proof.
  revert w. induction es as [|e es IH]; intros w Hes Hl Hg;
    cbn [run forallb reached_along] in *.
  - split; [assumption | lia].
  - apply andb_true_iff in Hes as [He Hes].
    destruct (step_clear e w He Hl) as (Hl' & Hn & _).
    destruct (step_automatic_goal e w He) as [Hg' _].
    assert (Hpos : 0 < goalValue (session_of (exec (step e) w)))
      by (rewrite Hg'; exact Hg).
    rewrite (bar_full_goal_met _ Hpos).
    destruct (evaluates e w && goal_met (session_of (exec (step e) w))) eqn:Hfired;
      cbn [orb].
    + destruct (run_latched es _ Hes Hl') as [Hl'' Hn'].
      split; [assumption | lia].
    + destruct (IH _ Hes Hl' Hpos) as [Hl'' Hn'].
      split; [assumption | lia].
Qed.


(** No interval and no change of the text reaches the main process, the
    one that fires [goalReached] included. *)
Lemma step_automatic_main (e : event) (w : world) :
  automatic e = true -> main (exec (step e) w) = main w.
Proof.
  intros He. destruct e; try discriminate He; open_world w; crunch; reflexivity.
Qed.

Lemma run_automatic_main (es : list event) (w : world) :
  forallb automatic es = true -> main (run es w) = main w.
Proof.
  revert w. induction es as [|e es IH]; intros w Hes; cbn [run forallb] in *.
  - reflexivity.
  - apply andb_true_iff in Hes as [He Hes].
    rewrite (IH _ Hes). now apply step_automatic_main.
Qed.

End HandlerFacts.

(** ** Examples *)

(** [parseInt] on inputs of the goal fields. *)
Example parseInt_examples :
  parseInt (lit "500") = Some 500
  /\ parseInt (lit "  42") = Some 42
  /\ parseInt (lit "12abc") = Some 12
  /\ parseInt (lit "10.9") = Some 10
  /\ parseInt (lit "-3") = Some (-3)
  /\ parseInt (lit "0x1F") = Some 31
  /\ parseInt (lit "") = None
  /\ parseInt (lit "abc") = None
  /\ parseInt (lit "-") = None.
Proof. repeat split; reflexivity. Qed.

(** [formatTime] *)
Example formatTime_examples :
  Renderer.formatTime 0 = lit "00:00"
  /\ Renderer.formatTime 75 = lit "01:15"
  /\ Renderer.formatTime 3725 = lit "1:02:05".
Proof. repeat split; reflexivity. Qed.

(** The double product behind [Math.ceil(goalValue * 1.2)]. *)
Example ceil_times_1_2_examples :
  ceil_times_1_2 10 = 12 /\ ceil_times_1_2 11 = 14 /\ ceil_times_1_2 100 = 120
  /\ ceil_times_1_2 50000 = 60000.
Proof. repeat split; reflexivity. Qed.

(** The strict session of ten words: the goal is announced at the tenth
    word and the lockdown is undone by save-and-exit. *)
Example ten_words_then_exit :
  let w := exec (step (H := plain_host) (SaveExitClicked 70000)) ten_words_typed in
  phase_of (session_of ten_words_typed) = GoalReached
  /\ isSessionActive (main ten_words_typed) = true
  /\ phase_of (session_of w) = Idle
  /\ isSessionActive (main w) = false
  /\ mainWindow (main w)
     = Some {| kiosk := false; fullScreen := false; alwaysOnTop := false;
               closable := true; minimizable := true;
               visibleOnAllWorkspaces := false; menuBarVisible := false |}
  /\ currentDraft (app w) = words 10.
Proof. repeat split; reflexivity. Qed.

(** [completed] is the latch at the time of the exit: after keep-writing it
    is clear again, although the first goal was reached. *)
Example completed_after_keep_writing :
  goal_announcements reached_then_left = 1%nat
  /\ (entry_completed <$> default [] (sessions_json (fs reached_then_left)))
     = [false].
Proof. split; reflexivity. Qed.

(** The emergency exit of a session with text: the draft is the text. *)
Example give_up_with_text :
  let w := exec (step (H := plain_host) (EmergencyInput (lit " i give up "))) text_kept in
  current_txt (fs w) = Some (lit "an old draft")
  /\ sessions_json (fs w) = None
  /\ drafts (fs w) = ∅
  /\ isSessionActive (main w) = false
  /\ phase_of (session_of w) = Idle.
Proof. repeat split; reflexivity. Qed.

(** ** The session lifecycle *)

Section Lifecycle.
Context `{Host}.

(** C1. The goal-reached transition fires exactly once, when the goal
    fraction first reaches 1.0.  Along any sequence of interval firings and
    text changes of a session whose latch is clear, [goalReached] has run
    once if the progress bar was found full at an evaluation of the goal (a
    text change for a word goal, a tick for a time goal) and not at all
    otherwise, and the latch records it; the event that fires moves the
    phase to GoalReached; once the latch is set no such event fires again,
    whatever the word count does. *)
Theorem goal_reached_fires_once (w : world) (es : list event) :
  forallb automatic es = true ->
  goalTriggered (session_of w) = false ->
  0 < goalValue (session_of w) ->
  let w' := run es w in
  goalTriggered (session_of w') = reached_along es w
  /\ goal_announcements w'
     = (goal_announcements w + if reached_along es w then 1 else 0)%nat
  /\ (forall e,
        automatic e = true ->
        let w1 := exec (step e) w in
        let fired := evaluates e w && bar_full (session_of w1) in
        goal_announcements w1 = (goal_announcements w + if fired then 1 else 0)%nat
        /\ phase_of (session_of w1)
           = if fired then GoalReached else phase_of (session_of w))
  /\ (forall es',
        forallb automatic es' = true ->
        reached_along es w = true ->
        goal_announcements (run es' w') = goal_announcements w'
        /\ goalTriggered (session_of (run es' w')) = true).
Proof.
  intros Hes Hl Hg w'.
  destruct (run_clear es w Hes Hl Hg) as [Hlatch Hcount].
  split; [exact Hlatch|]. split; [exact Hcount|]. split.
  - intros e He w1 fired.
    destruct (step_clear e w He Hl) as (_ & Hn & Hp).
    destruct (step_automatic_goal e w He) as [Hg' _].
    assert (Hpos : 0 < goalValue (session_of w1)) by (unfold w1; rewrite Hg'; exact Hg).
    unfold fired. rewrite (bar_full_goal_met _ Hpos).
    split; assumption.
  - intros es' Hes' Hr. unfold w'.
    destruct (run_latched es' (run es w) Hes') as [Hl' Hn'].
    + now rewrite Hlatch.
    + split; assumption.
Qed.

(** C2. Every tick sets [elapsedSeconds] to the whole seconds between the
    start of the session and the clock, whatever the value recorded before:
    the previous value decides only whether a suspension is logged (a gap
    of more than 5 seconds), nothing else of the resulting state.  A time
    goal that the clock has passed, by any gap, fires at that tick, once:
    the latch is set, the phase is GoalReached, and the ticks that follow
    fire nothing. *)
Theorem tick_recomputes_elapsed (w : world) (now : Z) :
  let s := session_of w in
  let elapsed := (now - default 0 (startTime s)) / 1000 in
  let w' := exec (Renderer.tick now) w in
  elapsedSeconds (session_of w') = elapsed
  /\ (forall previous,
        without_time_jumps (exec (Renderer.tick now) (with_elapsed previous w))
        = without_time_jumps w')
  /\ List.filter is_time_jump (new_effects w w')
     = (if 5 <? elapsed - elapsedSeconds s
        then [ConsoleLog (TimeJump (elapsed - elapsedSeconds s))]
        else [])
  /\ (goalType s = Time ->
      goalTriggered s = false ->
      goalValue s * 60 <= elapsed ->
      goalTriggered (session_of w') = true
      /\ phase_of (session_of w') = GoalReached
      /\ goal_announcements w' = S (goal_announcements w)
      /\ forall es,
           forallb automatic es = true ->
           goal_announcements (run es w') = goal_announcements w').
Proof.
  intros s elapsed w'. subst s elapsed w'.
  split; [|split; [|split]].
  - open_world w. crunch; reflexivity.
  - intros previous. unfold with_elapsed, without_time_jumps. open_world w.
    crunch; try discriminate; cbn [out]; rewrite ?List.filter_app;
      cbn [List.filter is_time_jump negb]; rewrite ?app_nil_r; reflexivity.
  - open_world w. crunch; added_effects; reflexivity.
  - intros Ht Hl Hm.
    assert (Hfire : goalTriggered (session_of (exec (Renderer.tick now) w)) = true
                    /\ phase_of (session_of (exec (Renderer.tick now) w)) = GoalReached
                    /\ goal_announcements (exec (Renderer.tick now) w)
                       = S (goal_announcements w)).
    { revert Ht Hl Hm. open_world w. intros -> -> Hm. unfold phase_of.
      crunch; try lia; repeat split; try reflexivity; count_announcements. }
    destruct Hfire as (Hl' & Hp & Hn).
    repeat split; try assumption.
    intros es Hes. now apply run_latched.
Qed.

(** C3. [startSession] accepts the goal exactly when [parseInt] of the
    input is an integer within the bounds, 10 to 50000 for words and 1 to
    480 for minutes.  The session then starts with that goal.  Otherwise a
    message that names the violated bound is shown and the state is
    otherwise untouched, so an idle application stays idle; an input
    without a number is rejected with the message of the lower bound, as a
    value below it. *)
Theorem startSession_validates (w : world) (now : Z) :
  let w' := exec (Renderer.startSession now) w in
  let started n :=
    active (session_of w') = true
    /\ goalValue (session_of w') = n
    /\ goalType (session_of w') = goalType (session_of w)
    /\ startTime (session_of w') = Some now
    /\ elapsedSeconds (session_of w') = 0
    /\ List.filter is_validation_error (new_effects w w') = [] in
  match goalType (session_of w) with
  | Words =>
      match parseInt (wordGoal_value (app w)) with
      | Some n =>
          if (10 <=? n) && (n <=? 50000) then started n
          else if n <? 10 then
            w' = rejected (lit "Word goal must be at least 10 words") w
          else
            w' = rejected (lit "Word goal cannot exceed "
                           ++ numberToLocaleString 50000 ++ lit " words") w
      | None => w' = rejected (lit "Word goal must be at least 10 words") w
      end
  | Time =>
      match parseInt (timeGoal_value (app w)) with
      | Some n =>
          if (1 <=? n) && (n <=? 480) then started n
          else if n <? 1 then
            w' = rejected (lit "Time goal must be at least 1 minute") w
          else
            w' = rejected (lit "Time goal cannot exceed 480 minutes (8 hours)") w
      | None => w' = rejected (lit "Time goal must be at least 1 minute") w
      end
  end.
Proof.
  unfold rejected. open_world w.
  crunch; to_arith; try lia; try reflexivity;
    repeat split; try reflexivity; added_effects; reflexivity.
Qed.

(** C10. With an empty content both exit handlers leave the storage as it
    is and attempt no write: no draft, no archive, no history entry.  With
    a content that is not empty, [emergency-exit] writes the draft and
    [end-session] writes the draft, the archive and the history entry, each
    unless its write fails. *)
Theorem empty_content_leaves_storage
    (w : world) (now : Z) (content : jsstring) (stats : session_stats) :
  let ended := exec (MainProcess.handle_end_session now content stats) w in
  let escaped := exec (MainProcess.handle_emergency_exit content) w in
  let saved :=
    if write_fails (fs w) CurrentTxt then current_txt (fs w) else Some content in
  let name := MainProcess.archive_name now in
  let entry :=
    {| entry_date := toISOString now;
       entry_words := stats_words stats;
       entry_duration := MainProcess.nonempty (stats_duration stats);
       entry_goalType := Some (stats_goalType stats);
       entry_goalValue := MainProcess.nonzero (stats_goalValue stats);
       entry_completed := stats_completed stats;
       entry_draftPath := name |} in
  match content with
  | [] =>
      fs ended = fs w
      /\ fs escaped = fs w
      /\ List.filter is_storage_error (new_effects w ended) = []
      /\ List.filter is_storage_error (new_effects w escaped) = []
  | _ :: _ =>
      current_txt (fs escaped) = saved
      /\ drafts (fs escaped) = drafts (fs w)
      /\ sessions_json (fs escaped) = sessions_json (fs w)
      /\ current_txt (fs ended) = saved
      /\ drafts (fs ended)
         = (if write_fails (fs w) (DraftFile name) then drafts (fs w)
            else <[name := MainProcess.archive_header now stats ++ content]>
                   (drafts (fs w)))
      /\ sessions_json (fs ended)
         = (if write_fails (fs w) (DraftFile name) || write_fails (fs w) SessionsJson
            then sessions_json (fs w)
            else Some (default [] (sessions_json (fs w)) ++ [entry]))
  end.
Proof.
  open_world w. destruct content as [|c content].
  - crunch; repeat split; try reflexivity; added_effects; reflexivity.
  - crunch; repeat split; reflexivity.
Qed.


(** C6, amended: typing into the emergency field exits exactly when the
    text, upper-cased and trimmed, is [I GIVE UP]; the three spellings of
    the specification do, [I give] does not.  The exit stops the intervals,
    writes the current content as the draft when it is not empty (an empty
    editor leaves the stored draft as it was), writes no archive and no
    history entry, clears the session flag and the configuration of the
    main process, undoes the lockdown of a strict configuration, and resets
    the session to its idle defaults.  Any other text only changes the
    field. *)
Theorem emergency_phrase_exits (w : world) (value : jsstring) :
  let s := session_of w in
  let content := editor_value (app w) in
  let w' := exec (step (EmergencyInput value)) w in
  Renderer.is_emergency_phrase value
  = bool_decide (trim (toUpperCase value) = lit "I GIVE UP")
  /\ Renderer.is_emergency_phrase (lit "i give up") = true
  /\ Renderer.is_emergency_phrase (lit " I GIVE UP ") = true
  /\ Renderer.is_emergency_phrase (lit "I Give Up") = true
  /\ Renderer.is_emergency_phrase (lit "I give") = false
  /\ if Renderer.is_emergency_phrase value then
       current_txt (fs w')
       = (if falsy content || write_fails (fs w) CurrentTxt
          then current_txt (fs w) else Some content)
       /\ drafts (fs w') = drafts (fs w)
       /\ sessions_json (fs w') = sessions_json (fs w)
       /\ session_of w' = default_session
       /\ phase_of (session_of w') = Idle
       /\ match timerInterval s with
          | Some h => timers (app w') !! h = None
          | None => True
          end
       /\ match autoSaveInterval s with
          | Some h => timers (app w') !! h = None
          | None => True
          end
       /\ sessionConfig (main w') = None
       /\ match mainWindow (main w) with
          | Some win =>
              isSessionActive (main w') = false
              /\ if MainProcess.strict_config (main w) then
                   mainWindow (main w') = Some (MainProcess.released_window win)
                   /\ lockdownInterval (main w') = false
                   /\ shortcutsRegistered (main w') = false
                 else
                   mainWindow (main w') = Some (MainProcess.set_fullScreen false win)
          | None => mainWindow (main w') = None
          end
     else w' = with_app (set_emergencyInput_value value) w.
Proof.
  intros s content w'. subst s content w'.
  split; [reflexivity|]. do 4 (split; [reflexivity|]).
  open_world w. unfold MainProcess.strict_config. project.
  crunch; repeat split; try reflexivity; try discriminate; cleared.
Qed.

(** C7, the behaviour of the code: [goalReached] stops the autosave
    interval, saves once and announces the goal, but its request to release
    the lockdown is not delivered: [window.focusWriter] has no member
    [goalReached], the call throws, the exception is caught and logged, and
    the main process stays as it was.  No interval and no change of the
    text ever changes the main process, so a strict session that reaches
    its goal remains locked down and keeps refusing to close. *)
Theorem goal_reached_release_not_delivered (w : world) :
  let s := session_of w in
  let w' := exec Renderer.goalReached w in
  let locked := run one_minute_reached (boot empty_disk) in
  exposed member_goalReached = false
  /\ main w' = main w
  /\ List.filter is_invoke (new_effects w w')
     = [Invoke (SaveContentReq (editor_value (app w)))]
  /\ In (ConsoleLog FailedToReleaseLockdown) (new_effects w w')
  /\ phase_of (session_of w') = GoalReached
  /\ match autoSaveInterval s with
     | Some h =>
         timers (app w') !! h = None
         /\ forall now, exec (step (TimerFired h now)) w' = w'
     | None => True
     end
  /\ (forall es, if forallb automatic es then main (run es w) = main w else True)
  /\ phase_of (session_of locked) = GoalReached
  /\ strictMode (session_of locked) = true
  /\ isSessionActive (main locked) = true
  /\ mainWindow (main locked) = Some MainProcess.locked_window
  /\ shortcutsRegistered (main locked) = true
  /\ mainWindow (main (exec (step CloseRequested) locked))
     = Some MainProcess.locked_window
  /\ In ClosePrevented (new_effects locked (exec (step CloseRequested) locked)).
Proof.
  intros s w' locked. subst s w'.
  split; [reflexivity|].
  split; [apply goalReached_main|].
  split; [open_world w; crunch; added_effects; reflexivity|].
  split; [open_world w; crunch; added_effects; cbn; tauto|].
  split; [rewrite goalReached_session; reflexivity|].
  split.
  - open_world w. destruct autoSaveInterval0 as [h|]; [|exact I].
    split.
    + crunch; apply lookup_delete_eq.
    + intros now. run_handlers.
      destruct (write_fails0 CurrentTxt); run_handlers;
        rewrite lookup_delete_eq; reflexivity.
  - split.
    + intros es. destruct (forallb automatic es) eqn:Hes; [|exact I].
      now apply run_automatic_main.
    + subst locked. vm_compute. repeat split; try reflexivity. now left.
Qed.

(** C8, amended: the close event of the window is refused whenever the main
    process holds a session active, and the emergency dialog is shown
    instead; otherwise the window closes.  [start-session] sets that flag
    for a strict and for a relaxed session alike, so the close event of a
    relaxed session is refused as well; what a relaxed session skips is the
    lockdown: its window only goes full screen, and its exit only leaves
    full screen.  The goal logic of the renderer does not read the strict
    flag. *)
Theorem close_refused_while_session_active (w : world) (now : Z) :
  let closing := exec (step CloseRequested) w in
  let started := exec (Renderer.startSession now) w in
  (if isSessionActive (main w) then
     main closing = main w
     /\ fs closing = fs w
     /\ new_effects w closing = [ClosePrevented; ShowExitWarning]
     /\ emergencyModal_hidden (app closing) = false
   else
     mainWindow (main closing) = None
     /\ new_effects w closing = [WindowClosed])
  /\ match Renderer.read_goal (app w), mainWindow (main w) with
     | inr _, Some win =>
         isSessionActive (main started) = true
         /\ if strictModeToggle_checked (app w) then
              mainWindow (main started) = Some MainProcess.locked_window
              /\ lockdownInterval (main started) = true
              /\ shortcutsRegistered (main started) = true
            else
              mainWindow (main started) = Some (MainProcess.set_fullScreen true win)
              /\ lockdownInterval (main started) = lockdownInterval (main w)
              /\ shortcutsRegistered (main started) = shortcutsRegistered (main w)
              /\ dockHidden (main started) = dockHidden (main w)
     | _, _ => True
     end
  /\ (if MainProcess.strict_config (main w) then True
      else forall content stats,
        main (exec (MainProcess.handle_end_session now content stats) w)
        = {| mainWindow := MainProcess.set_fullScreen false <$> mainWindow (main w);
             isSessionActive := false;
             sessionConfig := None;
             lockdownInterval := lockdownInterval (main w);
             shortcutsRegistered := shortcutsRegistered (main w);
             dockHidden := dockHidden (main w) |})
  /\ forall e b,
       goal_logic e = true ->
       exec (step e) (with_strict b w) = with_strict b (exec (step e) w).
Proof.
  intros closing started. subst closing started.
  split; [|split; [|split]].
  - open_world w. crunch; repeat split; try reflexivity; added_effects; reflexivity.
  - open_world w. crunch; try exact I; repeat split; reflexivity.
  - unfold MainProcess.strict_config. open_world w.
    crunch; try exact I; intros content stats; crunch; try discriminate; reflexivity.
  - intros e b He. unfold with_strict.
    destruct e; try discriminate He; open_world w; crunch; reflexivity.
Qed.

(** C4, amended: keep-writing adds 10 minutes to a time goal and raises a
    word goal to the ceiling of 1.2 times its value, clears the latch and
    the completion flag, makes the session active, and replaces the
    intervals of the session by a new tick and a new autosave interval.  It
    sends nothing to the main process, whose lockdown stays as it is, in a
    strict session as in a relaxed one.  From there the goal-reached
    transition fires again, once, when the new goal is found met. *)
Theorem keepWriting_extends_goal (w : world) :
  let s := session_of w in
  let w' := exec Renderer.keepWriting w in
  let s' := session_of w' in
  let n := next_timer (app w) in
  0 < goalValue s < 2 ^ 50 ->
  goalValue s'
  = match goalType s with
    | Time => goalValue s + 10
    | Words => (6 * goalValue s + 4) / 5
    end
  /\ ceil_times_1_2 100 = 120
  /\ goalTriggered s' = false
  /\ goalCompleted s' = false
  /\ phase_of s' = Active
  /\ timerInterval s' = Some n
  /\ autoSaveInterval s' = Some (N.succ n)
  /\ timers (app w')
     = <[N.succ n := AutoSaveTimer]>
         (<[n := TickTimer]>
            (without_timer (autoSaveInterval s)
               (without_timer (timerInterval s) (timers (app w)))))
  /\ main w' = main w
  /\ fs w' = fs w
  /\ out w' = out w
  /\ forall es,
       forallb automatic es = true ->
       goalTriggered (session_of (run es w')) = reached_along es w'
       /\ goal_announcements (run es w')
          = (goal_announcements w + if reached_along es w' then 1 else 0)%nat.
Proof.
  intros s w' s' n Hg. subst s w' s' n.
  assert (Hgoal : goalValue (session_of (exec Renderer.keepWriting w))
                  = match goalType (session_of w) with
                    | Time => goalValue (session_of w) + 10
                    | Words => (6 * goalValue (session_of w) + 4) / 5
                    end).
  { rewrite <- (ceil_times_1_2_exact (goalValue (session_of w))) by lia.
    open_world w. crunch; reflexivity. }
  assert (Hlatch : goalTriggered (session_of (exec Renderer.keepWriting w)) = false)
    by (open_world w; crunch; reflexivity).
  assert (Hout : out (exec Renderer.keepWriting w) = out w)
    by (open_world w; crunch; reflexivity).
  split; [exact Hgoal|]. split; [reflexivity|]. split; [exact Hlatch|].
  split; [open_world w; crunch; reflexivity|].
  split; [open_world w; unfold phase_of; crunch; reflexivity|].
  split; [open_world w; crunch; reflexivity|].
  split; [open_world w; crunch; reflexivity|].
  split; [open_world w; unfold without_timer; crunch; reflexivity|].
  split; [open_world w; crunch; reflexivity|].
  split; [open_world w; crunch; reflexivity|].
  split; [exact Hout|].
  intros es Hes.
  rewrite <- (announcements_out w _ Hout).
  apply run_clear; [exact Hes | exact Hlatch |].
  rewrite Hgoal. destruct (goalType (session_of w)); [|lia].
  apply Z.div_str_pos. lia.
Qed.

End Lifecycle.

Lemma goal_reached_fires_once_witness :
  forallb automatic dip_and_rise = true
  /\ goalTriggered (app_session (app ten_words_session)) = false
  /\ 0 < goalValue (app_session (app ten_words_session))
  /\ goal_announcements (run (H := plain_host) dip_and_rise ten_words_session) = 1%nat.
Proof.
  split; [reflexivity|]. split; [reflexivity|]. split; [reflexivity|].
  destruct (goal_reached_fires_once (H := plain_host) ten_words_session dip_and_rise
              eq_refl eq_refl eq_refl) as (_ & Hcount & _).
  rewrite Hcount. vm_compute. reflexivity.
Defined.

Lemma tick_recomputes_elapsed_witness :
  let now := 25 * 60 * 1000 + 100000 in
  let w' := exec (Renderer.tick (H := plain_host) now) pomodoro_session in
  goalType (app_session (app pomodoro_session)) = Time
  /\ goalTriggered (app_session (app pomodoro_session)) = false
  /\ goalValue (app_session (app pomodoro_session)) * 60
     <= (now - default 0 (startTime (app_session (app pomodoro_session)))) / 1000
  /\ elapsedSeconds (app_session (app w')) = 1600
  /\ goal_announcements w' = 1%nat.
Proof.
  intros now w'.
  destruct (tick_recomputes_elapsed (H := plain_host) pomodoro_session now)
    as (Helapsed & _ & _ & Hfire).
  split; [reflexivity|]. split; [reflexivity|]. split; [vm_compute; discriminate|].
  split; [exact Helapsed|].
  destruct (Hfire eq_refl eq_refl) as (_ & _ & Hn & _); [vm_compute; discriminate|].
  exact Hn.
Defined.



(** C6 as stated fails: the user deletes the text and gives up; the stored
    draft is still the old one, not the current, empty content. *)
Lemma emergency_exit_keeps_old_draft :
  ~ emergency_exit_persists (H := plain_host) text_deleted (lit "i give up").
Proof.
  intros Hclaim. destruct (Hclaim eq_refl) as (Hsaved & _).
  vm_compute in Hsaved. discriminate Hsaved.
Qed.


Lemma close_refused_while_session_active_witness :
  let typing := EditorInput (words 3) in
  isSessionActive (main relaxed_session) = true
  /\ new_effects relaxed_session
       (exec (step (H := plain_host) CloseRequested) relaxed_session)
     = [ClosePrevented; ShowExitWarning]
  /\ goal_logic typing = true
  /\ exec (step (H := plain_host) typing) (with_strict true relaxed_session)
     = with_strict true (exec (step (H := plain_host) typing) relaxed_session).
Proof.
  intros typing.
  destruct (close_refused_while_session_active (H := plain_host) relaxed_session 0)
    as (Hclose & _ & _ & Hlogic).
  assert (Hactive : isSessionActive (main relaxed_session) = true) by reflexivity.
  rewrite Hactive in Hclose. destruct Hclose as (_ & _ & Heffects & _).
  split; [exact Hactive|]. split; [exact Heffects|].
  split; [reflexivity|]. apply Hlogic. reflexivity.
Defined.

(** C8 as stated fails: the close event of a relaxed session that has just
    started is refused. *)
Lemma relaxed_close_is_refused :
  ~ nonstrict_close_allowed (H := plain_host) relaxed_session.
Proof.
  intros Hclaim. apply (Hclaim eq_refl eq_refl). vm_compute. now left.
Qed.

Lemma keepWriting_extends_goal_witness :
  let w' := exec Renderer.keepWriting ten_words_typed in
  0 < goalValue (app_session (app ten_words_typed)) < 2 ^ 50
  /\ goalValue (app_session (app w')) = 12
  /\ goalTriggered (app_session (app w')) = false
  /\ main w' = main ten_words_typed.
Proof.
  intros w'. split; [vm_compute; split; reflexivity|].
  destruct (keepWriting_extends_goal (H := plain_host) ten_words_typed)
    as (Hgoal & _ & Hlatch & _ & _ & _ & _ & _ & Hmain & _).
  - vm_compute; split; reflexivity.
  - split; [exact Hgoal|]. split; [exact Hlatch | exact Hmain].
Defined.

(** C4 as stated fails: keep-writing in a strict session that has reached
    its goal sends no request to the main process. *)
Lemma keepWriting_sends_no_request :
  ~ keepWriting_reengages silent_minute.
Proof.
  intros (_ & _ & Hrequest & _).
  destruct (Hrequest eq_refl) as [request Hin].
  vm_compute in Hin. exact Hin.
Qed.

(** * More of the program *)

(** Unfolds the handlers of the whole loop. *)
Ltac run_all :=
  cbv beta iota zeta delta
    [exec mbind M_bind mret M_ret gets modify emit skip invoke await exposed
     call storage_exposed act step default_session
     Welcome.handlePresetClick Welcome.confirmStartFresh
     Welcome.showNoDraftSection Welcome.loadSessionHistory
     Editor.handleEditorKeydown_Tab
     MainStorage.handle_clear_draft MainStorage.handle_load_sessions
     MainStorage.on_uncaughtException
     Renderer.tick Renderer.handleEditorInput Renderer.goalReached
     Renderer.autoSave Renderer.startSession Renderer.resetSession
     Renderer.saveAndExit Renderer.keepWriting Renderer.emergencyExit
     Renderer.checkEmergencyPhrase Renderer.loadDraft Renderer.read_goal
     Renderer.MIN_WORDS Renderer.MAX_WORDS Renderer.MIN_MINUTES
     Renderer.MAX_MINUTES
     Renderer.showEmergencyModal Renderer.hideEmergencyModal
     Renderer.handleGlobalKeydown_Escape
     Renderer.modify_session Renderer.get_session Renderer.setInterval
     Renderer.clearInterval Renderer.showScreen Renderer.showGoalBanner
     Renderer.hideGoalBanner Renderer.showPersistentExitButton
     Renderer.hidePersistentExitButton Renderer.showValidationError
     MainProcess.handle_start_session MainProcess.handle_goal_reached
     MainProcess.handle_end_session MainProcess.handle_emergency_exit
     MainProcess.handle_save_content MainProcess.handle_load_draft
     MainProcess.saveContent MainProcess.archiveDraft MainProcess.logSession
     MainProcess.leave_session MainProcess.leave_fullscreen
     MainProcess.enterLockdown MainProcess.exitLockdown
     MainProcess.showCompletion MainProcess.release MainProcess.on_close
     MainProcess.strict_config MainProcess.set_window
     MainProcess.set_isSessionActive MainProcess.set_sessionConfig
     stats_words stats_duration stats_goalType stats_goalValue
     stats_completed
     with_app with_main with_fs with_out with_session
     set_active set_goalType set_goalValue set_strictMode set_startTime
     set_startWordCount set_currentWordCount set_timerInterval
     set_autoSaveInterval set_elapsedSeconds set_goalTriggered
     set_goalCompleted set_editor_value set_currentDraft set_wordGoal_value
     set_timeGoal_value set_strictModeToggle_checked
     set_emergencyInput_value set_emergencyModal_hidden
     set_goalBanner_visible set_persistentExitBtn set_screen set_timers
     app main fs out
     app_session editor_value currentDraft wordGoal_value timeGoal_value
     strictModeToggle_checked emergencyInput_value emergencyModal_hidden
     goalBanner_visible persistentExitBtn screen timers next_timer
     active goalType goalValue strictMode startTime startWordCount
     currentWordCount timerInterval autoSaveInterval elapsedSeconds
     goalTriggered goalCompleted
     mainWindow isSessionActive sessionConfig lockdownInterval
     shortcutsRegistered dockHidden
     current_txt sessions_json drafts write_fails
     cfg_goalType cfg_goalValue cfg_strictMode
     falsy is_time is_words negb andb orb fst snd].

Ltac crunch_all := run_all; repeat (split_test; run_all).

(** ** Numbers and their decimal notation *)

Section DecimalFacts.

Lemma lit_String (c : ascii) (s : string) : lit (String c s) = N_of_ascii c :: lit s.
Proof. reflexivity. Qed.

(** The digits of a decimal numeral, read from the left. *)
Lemma parse_digits_uint (d : Decimal.uint) (a : Z) :
  parse_digits 10 (Some a) (lit (NilEmpty.string_of_uint d))
  = Some (a * 10 ^ Z.of_N (DecimalPos.Unsigned.usize d)
          + Z.of_N (DecimalPos.Unsigned.of_lu (Decimal.rev d))).
Proof.
  revert a. induction d; intros a;
    cbn [NilEmpty.string_of_uint DecimalPos.Unsigned.usize];
    [ cbn; f_equal; lia | .. ];
    unfold Decimal.rev; cbn [Decimal.revapp];
    rewrite (DecimalPos.Unsigned.of_lu_revapp d); fold (Decimal.rev d);
    rewrite lit_String; cbn [parse_digits];
    (match goal with |- context [digit_value 10 ?c] =>
       let v := eval vm_compute in (digit_value 10 c) in
       change (digit_value 10 c) with v end);
    cbn [default id];
    rewrite IHd; f_equal;
    cbn [DecimalPos.Unsigned.of_lu]; rewrite N2Z.inj_succ, Z.pow_succ_r by lia;
    rewrite N2Z.inj_add, N2Z.inj_mul, N2Z.inj_pow;
    rewrite ?N.mul_0_r, ?N.add_0_r; cbn [Z.of_N]; ring.
Qed.

(** A numeral starts with a digit: no whitespace, no sign and no [0x]. *)
Lemma digits_start (d : Decimal.uint) :
  d <> Decimal.Nil ->
  let s := lit (NilEmpty.string_of_uint d) in
  trimStart s = s /\ strip_sign s = (1, s) /\ strip_hex_prefix s = (10, s)
  /\ parse_digits 10 None s = parse_digits 10 (Some 0) s.
Proof.
  intros Hd. destruct d as [|d|d|d|d|d|d|d|d|d|d]; try congruence;
    cbn [NilEmpty.string_of_uint]; rewrite lit_String;
    (split; [reflexivity | split; [reflexivity | split; [| reflexivity]]]);
    destruct d; reflexivity.
Qed.

Lemma parse_digits_pos (p : positive) :
  parse_digits 10 None (lit (NilEmpty.string_of_uint (Pos.to_uint p))) = Some (Z.pos p).
Proof.
  pose proof (DecimalPos.Unsigned.to_uint_nonnil p) as Hn.
  destruct (digits_start _ Hn) as (_ & _ & _ & ->).
  rewrite parse_digits_uint. f_equal.
  rewrite <- DecimalPos.Unsigned.of_uint_alt, DecimalPos.Unsigned.of_to. reflexivity.
Qed.

Lemma string_of_pos (p : positive) :
  NilZero.string_of_uint (Pos.to_uint p) = NilEmpty.string_of_uint (Pos.to_uint p).
Proof.
  pose proof (DecimalPos.Unsigned.to_uint_nonnil p) as Hn.
  destruct (Pos.to_uint p); congruence || reflexivity.
Qed.

(** [parseInt(String(n))] is [n]. *)
Lemma parseInt_of_Z (n : Z) : parseInt (of_Z n) = Some n.
Proof.
  destruct n as [|p|p].
  - reflexivity.
  - unfold of_Z, parseInt. cbn [Z.to_int NilZero.string_of_int].
    rewrite string_of_pos.
    destruct (digits_start _ (DecimalPos.Unsigned.to_uint_nonnil p)) as (-> & -> & -> & _).
    rewrite parse_digits_pos. f_equal; lia.
  - unfold of_Z, parseInt. cbn [Z.to_int NilZero.string_of_int].
    rewrite string_of_pos, lit_String.
    change (trimStart (N_of_ascii "-" :: ?s)) with (N_of_ascii "-" :: s).
    change (strip_sign (N_of_ascii "-" :: ?s)) with (-1, s).
    destruct (digits_start _ (DecimalPos.Unsigned.to_uint_nonnil p)) as (_ & _ & -> & _).
    rewrite parse_digits_pos. reflexivity.
Qed.

Lemma of_Z_inj (a b : Z) : of_Z a = of_Z b -> a = b.
Proof.
  intros Hab. pose proof (parseInt_of_Z a) as Ha.
  rewrite Hab, parseInt_of_Z in Ha. congruence.
Qed.


End DecimalFacts.

Section PresetFacts.
Context `{Host}.


End PresetFacts.

Section Invariants.
Context `{Host}.

Lemma round53_pos (n : Z) : 0 < n -> 0 < round53 n.
Proof.
  intros Hn.
  destruct (round53_grid n Hn) as [[_ ->]|(s & q & r & Hs & _ & Hpow & Hqr & Hr & Hround)];
    [exact Hn|].
  assert (Hp : 0 < 2 ^ s) by (apply Z.pow_pos_nonneg; lia).
  change (2 ^ 52) with 4503599627370496 in Hpow.
  set (p := 2 ^ s) in *. clearbody p.
  assert (0 < q) by nia.
  destruct Hround as [[-> _]|[-> _]]; nia.
Qed.

(** [Math.ceil(g * 1.2)] is positive for a positive [g], whatever its
    size. *)
Lemma ceil_times_1_2_pos (g : Z) : 0 < g -> 0 < ceil_times_1_2 g.
Proof.
  intros Hg. unfold ceil_times_1_2.
  replace (Z.sgn g) with 1 by (symmetry; apply Z.sgn_pos; lia).
  rewrite Z.abs_eq, Z.mul_1_l by lia.
  assert (Hm : 0 < round53 (g * mant_1_2)) by (apply round53_pos; unfold mant_1_2; lia).
  assert (- round53 (g * mant_1_2) / 2 ^ 52 < 0); [|lia].
  apply Z.div_lt_upper_bound; [reflexivity | lia].
Qed.

Ltac fresh_handles Hf :=
  let h := fresh "h" in
  let c := fresh "c" in
  let Hh := fresh "Hh" in
  unfold handles_fresh in *; cbn [timers next_timer] in *; intros h c Hh;
  repeat first
    [ apply lookup_insert_Some in Hh as [[<- _]|[_ Hh]]
    | apply lookup_delete_Some in Hh as [_ Hh] ];
  try lia; try (apply Hf in Hh; lia).

Lemma act_well_formed (a : action) (w : world) :
  well_formed w -> well_formed (exec (act a) w).
Proof.
  unfold well_formed. intros (Hg & Hc & Hf).
  destruct a as [e| | | |]; [destruct e|..]; open_world w;
    crunch_all; to_arith;
    (split; [try assumption; try lia; try (apply ceil_times_1_2_pos; assumption)
            | split; [try assumption; try congruence; try (intros; reflexivity)
                     | try assumption; fresh_handles Hf]]).
Qed.

Lemma boot_well_formed (d : disk) : well_formed (boot d).
Proof.
  unfold well_formed, boot, initial_app. destruct d. crunch_all;
    (split; [reflexivity | split; [discriminate | intros h c Hh; cbn in Hh; discriminate]]).
Qed.

Lemma play_well_formed (acts : list action) (w : world) :
  well_formed w -> well_formed (play acts w).
Proof.
  revert w. induction acts as [|a acts IH]; intros w Hw; cbn [play].
  - exact Hw.
  - apply IH, act_well_formed, Hw.
Qed.

Lemma progress_sign (a g : Z) :
  0 < g -> (0 <= Qmin 100 (inject_Z a / inject_Z g * 100))%Q <-> 0 <= a.
Proof.
  intros Hg. rewrite Q.min_glb_iff.
  destruct g as [|p|p]; try lia.
  unfold Qle, Qdiv, Qmult, Qinv, inject_Z. cbn [Qnum Qden]. lia.
Qed.

(** X2. In every state that the events reach, the goal of the session is
    a positive number, whatever was typed and however often the user kept
    writing; the width of the progress bar is then at most 100 percent,
    and it is negative exactly for a time goal whose elapsed time is
    negative. *)
Theorem goal_stays_positive (d : disk) (acts : list action) :
  let s := session_of (play acts (boot d)) in
  0 < goalValue s
  /\ (Renderer.progressPercent s <= 100)%Q
  /\ ((0 <= Renderer.progressPercent s)%Q
      <-> goalType s = Words \/ 0 <= elapsedSeconds s).
Proof.
  destruct (play_well_formed acts _ (boot_well_formed d)) as (Hg & _ & _).
  cbv zeta. set (s := session_of (play acts (boot d))) in *. clearbody s.
  split; [exact Hg|]. unfold Renderer.progressPercent.
  destruct (goalType s); (split; [apply Q.le_min_l|]).
  - rewrite progress_sign by exact Hg. split; [now left | lia].
  - rewrite progress_sign by lia. split; [now right | now intros [?|?]].
Qed.

End Invariants.

Section IntervalFacts.
Context `{Host}.

Lemma fresh_next (a : app_state) :
  handles_fresh a ->
  timers a !! next_timer a = None /\ timers a !! N.succ (next_timer a) = None.
Proof.
  intros Hf. split.
  - destruct (timers a !! next_timer a) eqn:Hn; [apply Hf in Hn; lia | reflexivity].
  - destruct (timers a !! N.succ (next_timer a)) eqn:Hn; [apply Hf in Hn; lia | reflexivity].
Qed.

Lemma startSession_keeps_intervals (w : world) (now : Z) (h : N) (c : timer_callback) :
  handles_fresh (app w) ->
  timers (app w) !! h = Some c ->
  timers (app (exec (Renderer.startSession now) w)) !! h = Some c.
Proof.
  intros Hf Hh. pose proof (Hf _ _ Hh) as Hlt. revert Hh Hlt. clear Hf.
  open_world w. intros Hh Hlt. crunch_all; try assumption;
    rewrite !lookup_insert_ne by lia; assumption.
Qed.

Lemma keepWriting_intervals (w : world) :
  let s := session_of w in
  let n := next_timer (app w) in
  timers (app (exec Renderer.keepWriting w))
  = <[N.succ n := AutoSaveTimer]>
      (<[n := TickTimer]>
         (without_timer (autoSaveInterval s)
            (without_timer (timerInterval s) (timers (app w))))).
Proof. open_world w. unfold without_timer. crunch_all; reflexivity. Qed.

(** X3. In every state that the events reach, the handles of the running
    intervals are below the next handle, so that no [setInterval] replaces
    a running interval: [startSession] stops none of the intervals that
    run when it is called, and [keepWriting] stops the two of the session
    and no other before it registers its two. *)
Theorem intervals_never_replaced (d : disk) (acts : list action) (now : Z) :
  let w := play acts (boot d) in
  let s := session_of w in
  let n := next_timer (app w) in
  handles_fresh (app w)
  /\ timers (app w) !! n = None
  /\ timers (app w) !! N.succ n = None
  /\ (forall h c,
        timers (app w) !! h = Some c ->
        timers (app (exec (Renderer.startSession now) w)) !! h = Some c)
  /\ timers (app (exec Renderer.keepWriting w))
     = <[N.succ n := AutoSaveTimer]>
         (<[n := TickTimer]>
            (without_timer (autoSaveInterval s)
               (without_timer (timerInterval s) (timers (app w))))).
Proof.
  destruct (play_well_formed acts _ (boot_well_formed d)) as (_ & _ & Hf).
  cbv zeta. set (w := play acts (boot d)) in *. clearbody w.
  destruct (fresh_next _ Hf) as [Hn Hn'].
  repeat split; try assumption.
  - intros h c. now apply startSession_keeps_intervals.
  - apply keepWriting_intervals.
Qed.



End IntervalFacts.


Section StorageFacts.
Context `{Host}.

Lemma dropWhile_all_ws (s : jsstring) :
  forallb is_ws s = true -> dropWhile is_ws s = [].
Proof.
  induction s as [|c s IH]; cbn [forallb dropWhile]; [reflexivity|].
  intros Hs. apply andb_true_iff in Hs as [-> Hs]. now apply IH.
Qed.

(** [!content || !content.trim()] holds for the strings of whitespace. *)
Lemma blank_iff (content : jsstring) :
  falsy content || falsy (trim content) = forallb is_ws content.
Proof.
  destruct (forallb is_ws content) eqn:Hw.
  - unfold trim, trimStart. rewrite (dropWhile_all_ws _ Hw). apply orb_true_r.
  - destruct content as [|c content]; [discriminate Hw|]. cbn [falsy orb].
    destruct (trim (c :: content)) eqn:Ht; [|reflexivity]. exfalso.
    destruct (dropWhile_ws_split (c :: content)) as (w1 & Hw1 & Hs1).
    destruct (trimEnd_split (trimStart (c :: content))) as (w2 & Hw2 & Hs2).
    unfold trim in Ht. rewrite Ht in Hs2. cbn [List.app] in Hs2.
    unfold trimStart in Hs2. rewrite Hs2 in Hs1.
    rewrite Hs1, forallb_app, Hw1, Hw2 in Hw. discriminate Hw.
Qed.


Lemma loadDraft_fs (w : world) : fs (exec Renderer.loadDraft w) = fs w.
Proof. open_world w. crunch_all; reflexivity. Qed.



Lemma countWords_offered (file : option jsstring) :
  Renderer.countWords (offered_draft file) = Renderer.countWords (default [] file).
Proof.
  unfold offered_draft. cbv zeta.
  destruct (forallb is_ws (default [] file)) eqn:Hw; [|reflexivity].
  rewrite !countWords_refines. unfold word_count_spec.
  rewrite (count_word_starts_ws true (default [] file) Hw). reflexivity.
Qed.

Lemma saveAndExit_offers (w : world) (now : Z) :
  currentDraft (app (exec (Renderer.saveAndExit now) w))
  = offered_draft (current_txt (fs (exec (Renderer.saveAndExit now) w))).
Proof.
  open_world w. crunch_all; try discriminate; unfold offered_draft; cbv zeta;
    cbn [default id] in *; try discriminate; rewrite <- blank_iff;
    try match goal with H : default [] _ = _ |- _ => rewrite H end;
    try match goal with H : _ :: _ = _ :: _ |- _ => injection H as <- <- end;
    try match goal with H : trim _ = _ |- _ => rewrite H end;
    reflexivity.
Qed.

Lemma startSession_opens_draft (w : world) (now g : Z) :
  Renderer.read_goal (app w) = inr g ->
  let w' := exec (Renderer.startSession now) w in
  editor_value (app w') = currentDraft (app w)
  /\ startWordCount (session_of w') = Renderer.countWords (currentDraft (app w))
  /\ currentWordCount (session_of w') = startWordCount (session_of w').
Proof.
  open_world w. intros Hg. cbv zeta.
  cbv beta iota zeta delta [Renderer.startSession exec mbind M_bind gets app].
  rewrite Hg. crunch_all; repeat split; reflexivity.
Qed.

(** X7. After save-and-exit the welcome screen offers what [current.txt]
    holds: the text of the editor, or the file as it was when the editor
    was empty or the write failed; a text of whitespace only is offered as
    no draft.  The session started next opens with the offered draft in
    the editor and counts its words as written before the session. *)
Theorem exit_then_start_continues_draft (w : world) (now now' : Z) :
  let content := editor_value (app w) in
  let w' := exec (Renderer.saveAndExit now) w in
  let w'' := exec (Renderer.startSession now') w' in
  current_txt (fs w')
  = (if falsy content || write_fails (fs w) CurrentTxt then current_txt (fs w)
     else Some content)
  /\ currentDraft (app w') = offered_draft (current_txt (fs w'))
  /\ forall g,
       Renderer.read_goal (app w') = inr g ->
       editor_value (app w'') = currentDraft (app w')
       /\ startWordCount (session_of w'')
          = Renderer.countWords (default [] (current_txt (fs w')))
       /\ currentWordCount (session_of w'') = startWordCount (session_of w'').
Proof.
  cbv zeta. split; [|split].
  - open_world w. crunch_all; reflexivity.
  - apply saveAndExit_offers.
  - intros g Hg. rewrite <- countWords_offered, <- saveAndExit_offers.
    exact (startSession_opens_draft _ now' g Hg).
Qed.

End StorageFacts.

Section HistoryFacts.
Context `{Host}.





End HistoryFacts.


Section TabFacts.
Context `{Host}.

Lemma count_word_starts_app (b : bool) (x y : jsstring) :
  count_word_starts b (x ++ y)
  = (count_word_starts b x + count_word_starts (after_ws b x) y)%nat.
Proof.
  revert b. induction x as [|c x IH]; intros b; cbn [List.app count_word_starts after_ws].
  - reflexivity.
  - destruct (is_ws c); rewrite IH; lia.
Qed.

(** A text read in the middle of a word has at most one word less. *)
Lemma count_word_starts_mid (y : jsstring) :
  (count_word_starts false y <= count_word_starts true y <= S (count_word_starts false y))%nat.
Proof. destruct y as [|c y]; cbn [count_word_starts]; [lia|]. destruct (is_ws c); lia. Qed.

Lemma count_word_starts_any (b : bool) (y : jsstring) :
  (count_word_starts false y <= count_word_starts b y <= count_word_starts true y)%nat.
Proof. pose proof (count_word_starts_mid y). destruct b; lia. Qed.

Lemma insert_tab_count (i j : nat) (value : jsstring) :
  word_count_spec (Editor.insert_tab i j value)
  = (word_count_spec (take i value) + word_count_spec (drop j value))%nat.
Proof.
  unfold Editor.insert_tab, word_count_spec.
  rewrite count_word_starts_app. reflexivity.
Qed.

(** X9. The Tab key replaces the selection by a tab and runs the goal
    check of a change of the text.  The count of words grows by at most
    one; with an empty selection it does not shrink, and it grows when
    the caret stands inside a word, which the tab cuts in two. *)
Theorem tab_splits_at_most_one_word (w : world) (i j : nat) :
  (i <= j)%nat ->
  let value := editor_value (app w) in
  exec (Editor.handleEditorKeydown_Tab i j) w
  = exec (step (EditorInput (Editor.insert_tab i j value))) w
  /\ Renderer.countWords (Editor.insert_tab i j value) <= Renderer.countWords value + 1
  /\ (i = j ->
      Renderer.countWords value <= Renderer.countWords (Editor.insert_tab i j value)
      /\ (Renderer.countWords (Editor.insert_tab i j value) = Renderer.countWords value + 1
          <-> after_ws true (take i value) = false
              /\ count_word_starts true (drop i value)
                 = S (count_word_starts false (drop i value)))).
Proof.
  intros Hij. cbv zeta. split; [reflexivity|].
  set (value := editor_value (app w)). clearbody value.
  rewrite !countWords_refines, insert_tab_count.
  assert (Hsplit : value = take i value ++ take (j - i) (drop i value) ++ drop j value).
  { rewrite <- (take_drop i value) at 1. f_equal.
    rewrite <- (take_drop (j - i) (drop i value)) at 1. f_equal.
    rewrite drop_drop. f_equal. lia. }
  split.
  - unfold word_count_spec. rewrite Hsplit at 3.
    rewrite !count_word_starts_app.
    pose proof (count_word_starts_mid (drop j value)).
    pose proof (count_word_starts_any
                  (after_ws (after_ws true (take i value)) (take (j - i) (drop i value)))
                  (drop j value)).
    lia.
  - intros <-.
    assert (Hv : word_count_spec value
                 = (count_word_starts true (take i value)
                    + count_word_starts (after_ws true (take i value)) (drop i value))%nat).
    { unfold word_count_spec. rewrite <- (take_drop i value) at 1.
      apply count_word_starts_app. }
    rewrite Hv. unfold word_count_spec.
    pose proof (count_word_starts_mid (drop i value)).
    destruct (after_ws true (take i value)).
    + split; [lia|]. split; [lia | intros [? _]; discriminate].
    + split; [lia|]. split; [intros; split; [reflexivity | lia] | lia].
Qed.

End TabFacts.

Lemma tab_splits_at_most_one_word_witness :
  Renderer.countWords
    (Editor.insert_tab 1 1
       (editor_value (app (with_app (set_editor_value (lit "ab")) ten_words_session))))
  = 2.
Proof.
  pose proof (tab_splits_at_most_one_word (H := plain_host)
                (with_app (set_editor_value (lit "ab")) ten_words_session) 1 1
                (le_n 1)) as (_ & _ & Hcaret).
  destruct (Hcaret eq_refl) as [_ Hgrow].
  rewrite (proj2 Hgrow); [reflexivity|]. split; reflexivity.
Defined.

Section WindowFacts.
Context `{Host}.




End WindowFacts.


Section ClockFacts.
Context `{Host}.

Lemma below_sixty (P : Z -> bool) :
  forallb P (List.map Z.of_nat (seq 0 60)) = true ->
  forall m, 0 <= m < 60 -> P m = true.
Proof.
  intros HP m Hm. rewrite forallb_forall in HP. apply HP.
  apply in_map_iff. exists (Z.to_nat m). split; [lia|]. apply in_seq. lia.
Qed.

(** Minutes and seconds are printed with two digits, which [parseInt]
    reads back. *)
Lemma padStart2_sixty (m : Z) :
  0 <= m < 60 ->
  length (padStart2 (of_Z m)) = 2%nat /\ parseInt (padStart2 (of_Z m)) = Some m.
Proof.
  intros Hm.
  pose proof (below_sixty
                (fun m => (length (padStart2 (of_Z m)) =? 2)%nat
                          && match parseInt (padStart2 (of_Z m)) with
                             | Some n => n =? m
                             | None => false
                             end)
                ltac:(vm_compute; reflexivity) m Hm) as Hc.
  cbv beta in Hc. apply andb_true_iff in Hc as [Hl Hp].
  split; [now apply Nat.eqb_eq|].
  destruct (parseInt (padStart2 (of_Z m))); [|discriminate Hp].
  apply Z.eqb_eq in Hp. now subst.
Qed.

Lemma of_Z_not_empty (n : Z) : (1 <= length (of_Z n))%nat.
Proof.
  pose proof (parseInt_of_Z n) as Hn.
  destruct (of_Z n); [discriminate Hn | cbn [length]; lia].
Qed.

Lemma clock_parts (a : Z) :
  0 <= a ->
  0 <= a / 3600 /\ 0 <= Z.rem a 3600 / 60 < 60 /\ 0 <= Z.rem a 60 < 60
  /\ a = 3600 * (a / 3600) + 60 * (Z.rem a 3600 / 60) + Z.rem a 60.
Proof.
  intros Ha. rewrite !Z.rem_mod_nonneg by lia.
  pose proof (Z.div_mod a 3600 ltac:(lia)).
  pose proof (Z.mod_pos_bound a 3600 ltac:(lia)).
  pose proof (Z.div_mod (a mod 3600) 60 ltac:(lia)).
  pose proof (Z.mod_pos_bound (a mod 3600) 60 ltac:(lia)).
  assert (Hmm : (a mod 3600) mod 60 = a mod 60).
  { rewrite (Z.mod_eq a 3600) by lia.
    replace (a - 3600 * (a / 3600)) with (a + (- 60 * (a / 3600)) * 60) by lia.
    apply Z_mod_plus_full. }
  assert (0 <= a / 3600) by (apply Z.div_pos; lia).
  assert (0 <= a mod 3600 / 60 < 60).
  { split; [apply Z.div_pos; lia | apply Z.div_lt_upper_bound; lia]. }
  pose proof (Z.mod_pos_bound a 60 ltac:(lia)).
  lia.
Qed.

Lemma minutes_seconds_inj (ma sa mb sb : Z) :
  0 <= ma < 60 -> 0 <= sa < 60 -> 0 <= mb < 60 -> 0 <= sb < 60 ->
  padStart2 (of_Z ma) ++ 58%N :: padStart2 (of_Z sa)
  = padStart2 (of_Z mb) ++ 58%N :: padStart2 (of_Z sb) ->
  ma = mb /\ sa = sb.
Proof.
  intros Hma Hsa Hmb Hsb Heq.
  destruct (padStart2_sixty ma Hma) as [Hla Hpa].
  destruct (padStart2_sixty mb Hmb) as [Hlb Hpb].
  destruct (padStart2_sixty sa Hsa) as [_ Hqa].
  destruct (padStart2_sixty sb Hsb) as [_ Hqb].
  apply app_inj_1 in Heq as [Hm Hs]; [|congruence].
  injection Hs as Hs.
  rewrite Hm in Hpa. rewrite Hs in Hqa. split; congruence.
Qed.

(** X12. [formatTime] prints different durations differently: from zero
    on, the text of the clock, which is also the duration of the history
    entry, determines the number of seconds. *)
Theorem formatTime_tells_durations_apart (a b : Z) :
  0 <= a -> 0 <= b -> a <> b ->
  Renderer.formatTime a <> Renderer.formatTime b.
Proof.
  intros Ha Hb Hab Heq. apply Hab. clear Hab.
  destruct (clock_parts a Ha) as (Hha & Hma & Hsa & Hda).
  destruct (clock_parts b Hb) as (Hhb & Hmb & Hsb & Hdb).
  unfold Renderer.formatTime in Heq. cbv zeta in Heq.
  set (ha := a / 3600) in *. set (hb := b / 3600) in *.
  set (ma := Z.rem a 3600 / 60) in *. set (mb := Z.rem b 3600 / 60) in *.
  set (sa := Z.rem a 60) in *. set (sb := Z.rem b 60) in *.
  clearbody ha hb ma mb sa sb.
  change (lit ":") with [58%N] in Heq. cbn [List.app] in Heq.
  assert (Hlen : forall m s, 0 <= m < 60 -> 0 <= s < 60 ->
            length (padStart2 (of_Z m) ++ 58%N :: padStart2 (of_Z s)) = 5%nat).
  { intros m s Hm Hs. rewrite length_app. cbn [length].
    rewrite (proj1 (padStart2_sixty m Hm)), (proj1 (padStart2_sixty s Hs)). reflexivity. }
  destruct (Z.ltb_spec 0 ha) as [Hpa|Hza], (Z.ltb_spec 0 hb) as [Hpb|Hzb];
    cbv beta iota in Heq.
  - apply app_inj_2 in Heq as [Hh Ht].
    + apply of_Z_inj in Hh. injection Ht as Ht.
      destruct (minutes_seconds_inj ma sa mb sb Hma Hsa Hmb Hsb Ht). lia.
    + change (length (58%N :: ?x)) with (S (length x)). now rewrite (Hlen ma sa Hma Hsa), (Hlen mb sb Hmb Hsb).
  - apply (f_equal length) in Heq. rewrite (length_app (of_Z ha)) in Heq.
    change (length (58%N :: ?x)) with (S (length x)) in Heq.
    rewrite (Hlen ma sa Hma Hsa), (Hlen mb sb Hmb Hsb) in Heq.
    pose proof (of_Z_not_empty ha). lia.
  - apply (f_equal length) in Heq. rewrite (length_app (of_Z hb)) in Heq.
    change (length (58%N :: ?x)) with (S (length x)) in Heq.
    rewrite (Hlen ma sa Hma Hsa), (Hlen mb sb Hmb Hsb) in Heq.
    pose proof (of_Z_not_empty hb). lia.
  - destruct (minutes_seconds_inj ma sa mb sb Hma Hsa Hmb Hsb Heq). lia.
Qed.

End ClockFacts.

Lemma formatTime_tells_durations_apart_witness :
  Renderer.formatTime 59 <> Renderer.formatTime 60.
Proof.
  apply (formatTime_tells_durations_apart 59 60); lia.
Defined.

Section SettingsFacts.
Import Settings.

Lemma saveSettings_relaunch (st : state) (checked : bool)
    (attribute : option jsstring) (fails : bool) (v : jsstring) :
  theme (this_settings st) = Some v ->
  write_fails st = false ->
  let st' := saveSettings st in
  let st'' := launch checked attribute (settings_json st') fails in
  theme (this_settings st'') = Some v
  /\ data_theme st'' = Some v
  /\ strictModeToggle_checked st'' = strictModeToggle_checked st
  /\ strictMode (this_settings st'') = Some (strictModeToggle_checked st).
Proof.
  destruct st as [[t fs ff sm] c a file wf]. cbn. intros -> ->.
  destruct c; repeat split; reflexivity.
Qed.

(** [toggleTheme] saves the settings with the new theme applied. *)
Lemma toggleTheme_saves (st : state) :
  exists v,
    toggleTheme st
    = saveSettings
        {| this_settings :=
             {| theme := Some v; fontSize := fontSize (this_settings st);
                fontFamily := fontFamily (this_settings st);
                strictMode := strictMode (this_settings st) |};
           strictModeToggle_checked := strictModeToggle_checked st;
           data_theme := Some v;
           settings_json := settings_json st;
           write_fails := write_fails st |}.
Proof. eexists. reflexivity. Qed.

Lemma toggleTheme_relaunch (st : state) (checked : bool)
    (attribute : option jsstring) (fails : bool) :
  let st' := toggleTheme st in
  let st'' := launch checked attribute (settings_json st') fails in
  if write_fails st then settings_json st' = settings_json st
  else theme (this_settings st'') = theme (this_settings st')
       /\ data_theme st'' = data_theme st'
       /\ strictModeToggle_checked st'' = strictModeToggle_checked st
       /\ strictMode (this_settings st'') = Some (strictModeToggle_checked st).
Proof.
  cbv zeta. destruct (toggleTheme_saves st) as [v Hv]. rewrite Hv. clear Hv.
  destruct (write_fails st) eqn:Hw.
  - reflexivity.
  - match goal with
    | |- context [saveSettings ?x] =>
        destruct (saveSettings_relaunch x checked attribute fails v eq_refl eq_refl)
          as (Ht & Hd & Hc & Hs)
    end.
    split; [exact Ht|]. split; [exact Hd|]. split; [exact Hc | exact Hs].
Qed.

Lemma launch_defaults (checked : bool) (attribute : option jsstring) (fails : bool) :
  strictModeToggle_checked (launch checked attribute NoFile fails) = true
  /\ data_theme (launch checked attribute NoFile fails) = Some (lit "dark")
  /\ strictModeToggle_checked (launch checked attribute Unreadable fails) = checked.
Proof. split; [reflexivity | split; reflexivity]. Qed.

(** X13. [toggleTheme] saves the settings, and it stores the state of
    the strict-mode toggle with the theme: when the write succeeds, the
    next launch shows the theme chosen and sets the toggle as it stood at
    the change of the theme, whatever the markup says.  Without a file the
    launch checks the toggle and shows the dark theme; with a file that
    cannot be parsed it leaves the toggle of the markup. *)
Theorem theme_toggle_survives_relaunch (st : state) (checked : bool)
    (attribute : option jsstring) (fails : bool) :
  let st' := toggleTheme st in
  let st'' := launch checked attribute (settings_json st') fails in
  (if write_fails st then settings_json st' = settings_json st
   else theme (this_settings st'') = theme (this_settings st')
        /\ data_theme st'' = data_theme st'
        /\ strictModeToggle_checked st'' = strictModeToggle_checked st
        /\ strictMode (this_settings st'') = Some (strictModeToggle_checked st))
  /\ strictModeToggle_checked (launch checked attribute NoFile fails) = true
  /\ data_theme (launch checked attribute NoFile fails) = Some (lit "dark")
  /\ strictModeToggle_checked (launch checked attribute Unreadable fails) = checked.
Proof.
  exact (conj (toggleTheme_relaunch st checked attribute fails)
              (launch_defaults checked attribute fails)).
Qed.

Lemma light_is_not_dark :
  bool_decide (Some (lit "light") = Some (lit "dark")) = false.
Proof. vm_compute. reflexivity. Qed.

Lemma dark_is_dark :
  bool_decide (Some (lit "dark") = Some (lit "dark")) = true.
Proof. vm_compute. reflexivity. Qed.

Lemma toggleTheme_theme (st : state) :
  theme (this_settings (toggleTheme st))
  = Some (if bool_decide (theme (this_settings st) = Some (lit "dark"))
          then lit "light" else lit "dark")
  /\ data_theme (toggleTheme st) = theme (this_settings (toggleTheme st)).
Proof. split; reflexivity. Qed.

(** X14. [toggleTheme] knows two themes: it shows light after dark and
    dark after anything else, so two changes lead back to the theme shown
    exactly when that was dark or light, and the theme of the body always
    follows the settings. *)
Theorem toggleTheme_twice (st : state) :
  let t := theme (this_settings st) in
  let once := toggleTheme st in
  let twice := toggleTheme once in
  theme (this_settings once)
  = Some (if bool_decide (t = Some (lit "dark")) then lit "light" else lit "dark")
  /\ theme (this_settings twice)
     = Some (if bool_decide (t = Some (lit "dark")) then lit "dark" else lit "light")
  /\ (theme (this_settings twice) = t
      <-> t = Some (lit "dark") \/ t = Some (lit "light"))
  /\ data_theme once = theme (this_settings once)
  /\ data_theme twice = theme (this_settings twice).
Proof.
  cbv zeta.
  destruct (toggleTheme_theme st) as [Honce Hd1].
  destruct (toggleTheme_theme (toggleTheme st)) as [Htwice Hd2].
  rewrite Honce in Htwice.
  assert (Ht2 : theme (this_settings (toggleTheme (toggleTheme st)))
                = Some (if bool_decide (theme (this_settings st) = Some (lit "dark"))
                        then lit "dark" else lit "light")).
  { rewrite Htwice.
    destruct (bool_decide (theme (this_settings st) = Some (lit "dark")));
      [now rewrite light_is_not_dark | now rewrite dark_is_dark]. }
  split; [exact Honce|]. split; [exact Ht2|].
  split; [|split; assumption].
  rewrite Ht2. clear.
  destruct (bool_decide (theme (this_settings st) = Some (lit "dark"))) eqn:Ht.
  - apply bool_decide_eq_true in Ht. split; [now left | now intros _].
  - apply bool_decide_eq_false in Ht. split.
    + intros <-. now right.
    + intros [Hd|Hl]; [contradiction | now rewrite Hl].
Qed.

End SettingsFacts.

(** ** The browser edition *)

Ltac web_handlers :=
  cbv beta iota zeta delta
    [WebEdition.web_step WebEdition.tick WebEdition.startTimedSession
     WebEdition.restoreSession WebEdition.endSession WebEdition.saveSession
     WebEdition.setInterval WebEdition.clearInterval WebEdition.notify
     WebEdition.showEmergencyExit WebEdition.hideEmergencyExit
     WebEdition.checkEmergencyExit WebEdition.handleGlobalKeydown_Escape
     WebEdition.openSettings WebEdition.closeSettingsPanel
     WebEdition.presetClicked WebEdition.constructed WebEdition.loaded
     WebEdition.beforeunload_prevented WebEdition.getWordCount
     WebEdition.set_editor WebEdition.set_hoursInput WebEdition.set_minutesInput
     WebEdition.set_strictMode WebEdition.set_emergencyInput
     WebEdition.set_settingsPanel_hidden WebEdition.set_emergencyExit_hidden
     WebEdition.set_timerInterval WebEdition.set_sessionActive
     WebEdition.set_sessionDuration WebEdition.set_timeRemaining
     WebEdition.set_isStrictMode WebEdition.set_startWordCount
     WebEdition.set_intervals WebEdition.set_next_interval
     WebEdition.set_session_item WebEdition.set_notices
     WebEdition.editor WebEdition.hoursInput WebEdition.minutesInput
     WebEdition.strictMode WebEdition.emergencyInput
     WebEdition.settingsPanel_hidden WebEdition.emergencyExit_hidden
     WebEdition.timerInterval WebEdition.sessionActive
     WebEdition.sessionDuration WebEdition.timeRemaining
     WebEdition.isStrictMode WebEdition.startWordCount WebEdition.intervals
     WebEdition.next_interval WebEdition.session_item
     WebEdition.setItem_throws WebEdition.notices
     WebEdition.duration WebEdition.remaining WebEdition.strict
     WebEdition.startWords WebEdition.timestamp
     negb andb orb fst snd].

Ltac web_crunch := web_handlers; repeat (split_test; web_handlers).

Ltac web_facts :=
  repeat match goal with
         | Hx : _ /\ _ |- _ => destruct Hx as [? ?]
         | Hx : exists _, _ |- _ => destruct Hx as [? ?]
         | Hx : bool_decide _ = true |- _ => apply bool_decide_eq_true in Hx
         | Hx : bool_decide _ = false |- _ => apply bool_decide_eq_false in Hx
         end;
  to_arith; subst.

Ltac web_finish :=
  web_facts; try discriminate;
  repeat split; intros; try discriminate; try congruence; try lia;
  try (eexists; split; [reflexivity|]);
  try match goal with
      | |- @eq (gset _) _ _ => set_solver
      | Hx : _ ∈ _ |- _ => set_solver
      | Hx : _ ∉ _ |- _ => set_solver
      end.

Section WebFacts.
Context `{Host}.
Import WebEdition.

Lemma web_step_throws (e : web_event) (p : page) :
  setItem_throws (web_step e p) = setItem_throws p.
Proof. destruct p, e; web_crunch; reflexivity. Qed.

#[local] Set Warnings "-clear-no-such-hyp".

Lemma web_step_consistent (e : web_event) (p : page) :
  setItem_throws p = false -> consistent p -> consistent (web_step e p).
Proof.
  unfold consistent. destruct p as [ed hi mi sm ei sp eh ti sa sd tr ism swc iv ni item thr nt].
  cbn [setItem_throws sessionActive timerInterval
    intervals timeRemaining settingsPanel_hidden emergencyExit_hidden isStrictMode].
  intros -> [Ha He].
  destruct sa, eh; try specialize (He eq_refl); web_facts; try discriminate;
    destruct e; web_crunch; web_finish.
Qed.

Lemma web_run_consistent (es : list web_event) (p : page) :
  setItem_throws p = false -> consistent p -> consistent (web_run es p).
Proof.
  revert p. induction es as [|e es IH]; intros p Ht Hp; cbn [web_run].
  - exact Hp.
  - apply IH; [now rewrite web_step_throws | now apply web_step_consistent].
Qed.

Lemma loaded_consistent (now : Z) (editor_value hours minutes : jsstring)
    (checked : bool) (item : option session_data) (throws : bool) :
  consistent (loaded now editor_value hours minutes checked item throws).
Proof. unfold consistent. web_crunch; web_finish. Qed.

Lemma web_run_throws (es : list web_event) (p : page) :
  setItem_throws (web_run es p) = setItem_throws p.
Proof.
  revert p. induction es as [|e es IH]; intros p; cbn [web_run]; [reflexivity|].
  now rewrite IH, web_step_throws.
Qed.

Lemma loaded_throws (now : Z) (editor_value hours minutes : jsstring)
    (checked : bool) (item : option session_data) (throws : bool) :
  setItem_throws (loaded now editor_value hours minutes checked item throws) = throws.
Proof. unfold loaded. web_crunch; reflexivity. Qed.

(** X15. On a page whose storage takes the session, every state that the
    events reach from a load is consistent: an active session has exactly
    one interval, that of its handle, time left and the settings panel
    closed, so that no second countdown can be started beside it; an idle
    page has no interval; and the emergency dialog is open only in a
    strict session. *)
Theorem web_session_consistent (now : Z) (editor_value hours minutes : jsstring)
    (checked : bool) (item : option session_data) (es : list web_event) :
  consistent (web_run es (loaded now editor_value hours minutes checked item false)).
Proof.
  apply web_run_consistent; [apply loaded_throws | apply loaded_consistent].
Qed.

Lemma tick_counts_down (p : page) (h : N) (now : Z) :
  setItem_throws p = false -> sessionActive p = true ->
  timerInterval p = Some h -> h ∈ intervals p -> 1 < timeRemaining p ->
  let p' := web_step (IntervalFired h now) p in
  sessionActive p' = true /\ timerInterval p' = Some h
  /\ intervals p' = intervals p /\ timeRemaining p' = timeRemaining p - 1
  /\ setItem_throws p' = false
  /\ session_item p'
     = Some {| duration := sessionDuration p; remaining := timeRemaining p - 1;
               strict := isStrictMode p; startWords := startWordCount p;
               timestamp := now |}
  /\ notices p' = notices p.
Proof.
  destruct p. cbn [setItem_throws sessionActive timerInterval intervals
                   timeRemaining sessionDuration isStrictMode startWordCount
                   notices].
  intros -> -> -> Hh Hr. web_crunch; web_finish.
Qed.

Lemma tick_ends_session (p : page) (h : N) (now : Z) :
  setItem_throws p = false -> sessionActive p = true ->
  timerInterval p = Some h -> h ∈ intervals p -> timeRemaining p = 1 ->
  let p' := web_step (IntervalFired h now) p in
  sessionActive p' = false /\ session_item p' = None
  /\ intervals p' = intervals p ∖ {[h]}
  /\ notices p'
     = notices p
       ++ [Notification (lit "Session complete! You wrote "
                         ++ of_Z (WebApp.getWordCount (editor p) - startWordCount p)
                         ++ lit " words.");
           CompletionTone].
Proof.
  destruct p. cbn [setItem_throws sessionActive timerInterval intervals
                   timeRemaining sessionDuration isStrictMode startWordCount
                   notices editor].
  intros -> -> -> Hh ->. web_crunch; web_facts; try lia; try contradiction.
  rewrite <- app_assoc. repeat split; reflexivity.
Qed.

(** X16. The countdown of the browser edition counts the firings of its
    interval and never reads the clock: in an active session with [r]
    seconds left, fewer than [r] firings leave the session active with one
    second less for each, whatever times they come at, and the firing
    number [r] ends the session, clears the stored session and the
    interval and shows the notification. *)
Theorem countdown_counts_firings (p : page) (h : N) (nows : list Z) :
  setItem_throws p = false -> sessionActive p = true ->
  timerInterval p = Some h -> h ∈ intervals p -> 0 < timeRemaining p ->
  let fired := Z.of_nat (length nows) in
  let p' := web_run (List.map (IntervalFired h) nows) p in
  (fired < timeRemaining p ->
   sessionActive p' = true /\ timeRemaining p' = timeRemaining p - fired
   /\ intervals p' = intervals p /\ notices p' = notices p)
  /\ (fired = timeRemaining p ->
      sessionActive p' = false /\ session_item p' = None
      /\ intervals p' = intervals p ∖ {[h]}
      /\ notices p'
         = notices p
           ++ [Notification (lit "Session complete! You wrote "
                             ++ of_Z (WebApp.getWordCount (editor p) - startWordCount p)
                             ++ lit " words.");
               CompletionTone]).
Proof.
  cbv zeta. revert p.
  induction nows as [|now nows IH]; intros p Ht Ha Hi Hh Hr;
    cbn [List.map web_run length].
  - split; intros Hf; [|cbn in Hf; lia].
    rewrite Z.sub_0_r. repeat split; assumption || reflexivity.
  - rewrite Nat2Z.inj_succ.
    destruct (Z.eq_dec (timeRemaining p) 1) as [H1|H1].
    + split; intros Hf; [lia|].
      assert (nows = []) as -> by (destruct nows; [reflexivity | cbn [length] in Hf; lia]).
      cbn [List.map web_run]. now apply tick_ends_session.
    + destruct (tick_counts_down p h now Ht Ha Hi Hh ltac:(lia))
        as (Ha' & Hi' & Hs' & Hr' & Ht' & _ & Hn').
      assert (He : editor (web_step (IntervalFired h now) p) = editor p
                   /\ startWordCount (web_step (IntervalFired h now) p)
                      = startWordCount p).
      { clear IH. destruct p. cbn [setItem_throws sessionActive timerInterval] in *.
        subst. web_crunch; split; reflexivity || (web_facts; cbn in *; lia). }
      destruct He as [He Hw].
      destruct (IH _ Ht' Ha' Hi' ltac:(now rewrite Hs') ltac:(lia)) as [IH1 IH2].
      rewrite Hr', Hs', Hn', He, Hw in *.
      split; intros Hf.
      * destruct (IH1 ltac:(lia)) as (? & ? & ? & ?).
        repeat split; try assumption; lia.
      * apply IH2. lia.
Qed.

(** X17. A reload resumes the countdown from the session that the last
    tick stored, less the whole seconds that the clock has moved since:
    the time with the page closed counts, a clock that was set back gives
    time, and a reload at the time of the tick loses nothing.  The
    session is dropped, and its stored copy removed, when nothing is left
    or when more than a day has passed. *)
Theorem reload_resumes_countdown (p : page) (h : N) (now now' : Z)
    (editor_value hours minutes : jsstring) (checked : bool) :
  setItem_throws p = false -> sessionActive p = true ->
  timerInterval p = Some h -> h ∈ intervals p -> 1 < timeRemaining p ->
  let p1 := web_step (IntervalFired h now) p in
  let p2 := web_step (Reloaded now' editor_value hours minutes checked) p1 in
  let left := timeRemaining p - 1 - (now' - now) / 1000 in
  if (86400000 <? now' - now) || (left <=? 0) then
    sessionActive p2 = false /\ session_item p2 = None /\ intervals p2 = ∅
  else
    sessionActive p2 = true /\ timeRemaining p2 = left
    /\ sessionDuration p2 = sessionDuration p
    /\ isStrictMode p2 = isStrictMode p
    /\ startWordCount p2 = startWordCount p
    /\ intervals p2 = {[1%N]} /\ timerInterval p2 = Some 1%N.
Proof.
  intros Ht Ha Hi Hh Hr. cbv zeta.
  destruct (tick_counts_down p h now Ht Ha Hi Hh Hr)
    as (_ & _ & _ & _ & Ht' & Hs' & _).
  set (p1 := web_step (IntervalFired h now) p) in *. clearbody p1.
  destruct p1, p as [ed hi mi sm ei sp eh ti sa sd tr ism swc iv ni item thr nt].
  cbn [session_item setItem_throws timeRemaining sessionDuration isStrictMode
       startWordCount] in *.
  subst. web_handlers. change (24 * (1000 * 60 * 60)) with 86400000.
  destruct (86400000 <? now' - now) eqn:Hday; cbn [orb]; web_handlers.
  - repeat split; reflexivity.
  - destruct (Z.leb_spec (tr - 1 - (now' - now) / 1000) 0) as [Hl|Hl].
    + destruct (Z.ltb_spec 0 (tr - 1 - (now' - now) / 1000)); [lia|].
      web_handlers. repeat split; reflexivity.
    + destruct (Z.ltb_spec 0 (tr - 1 - (now' - now) / 1000)); [|lia].
      web_handlers. repeat split; try reflexivity; set_solver.
Qed.




(** X19. [saveSession] is not guarded: when [localStorage] refuses the
    session, Start stops after it has marked the session active, with no
    countdown registered, no stored session and the panel still open, and
    a tick stops before it tests the end, so that the countdown of a
    running session passes zero and the session does not end. *)
Theorem storage_failure_strands_session (p : page) (now : Z) :
  setItem_throws p = true ->
  let total :=
    (parseInt_or_zero (hoursInput p) * 60 + parseInt_or_zero (minutesInput p)) * 60 in
  let started := startTimedSession now p in
  let ticked := tick now p in
  (60 <= total ->
   sessionActive started = true /\ timeRemaining started = total
   /\ intervals started = intervals p /\ timerInterval started = timerInterval p
   /\ session_item started = session_item p
   /\ settingsPanel_hidden started = settingsPanel_hidden p)
  /\ timeRemaining ticked = timeRemaining p - 1
  /\ sessionActive ticked = sessionActive p
  /\ intervals ticked = intervals p
  /\ notices ticked = notices p.
Proof.
  destruct p as [ed hi mi sm ei sp eh ti sa sd tr ism swc iv ni item thr nt].
  cbn [setItem_throws hoursInput minutesInput]. intros ->. cbv zeta.
  split; [intros Htotal|].
  - web_handlers.
    destruct (Z.ltb_spec ((parseInt_or_zero hi * 60 + parseInt_or_zero mi) * 60) 60);
      [lia|].
    web_handlers. repeat split; reflexivity.
  - web_handlers. repeat split; reflexivity.
Qed.

Lemma user_action_relaxed (e : web_event) (p : page) :
  user_action e = true ->
  sessionActive p = true -> isStrictMode p = false ->
  settingsPanel_hidden p = true -> emergencyExit_hidden p = true ->
  let p' := web_step e p in
  sessionActive p' = true /\ isStrictMode p' = false
  /\ settingsPanel_hidden p' = true /\ emergencyExit_hidden p' = true
  /\ timeRemaining p' = timeRemaining p /\ intervals p' = intervals p
  /\ session_item p' = session_item p.
Proof.
  destruct p. cbn [sessionActive isStrictMode settingsPanel_hidden
                   emergencyExit_hidden timeRemaining intervals session_item].
  intros He -> -> -> ->.
  destruct e; try discriminate He; web_crunch; repeat split; reflexivity.
Qed.

(** X20. A session that is not strict has no way out on the page: the
    Escape key opens no dialog, the emergency phrase has no field to be
    typed into, and the settings cannot be opened, so that no action of
    the user ends the session or changes its countdown; only the
    countdown itself ends it, and leaving the page is not held back. *)
Theorem relaxed_session_has_no_exit (now : Z) (editor_value hours minutes : jsstring)
    (checked : bool) (item : option session_data) (before es : list web_event) :
  let p := web_run before (loaded now editor_value hours minutes checked item false) in
  let p' := web_run es p in
  sessionActive p = true -> isStrictMode p = false ->
  forallb user_action es = true ->
  sessionActive p' = true /\ timeRemaining p' = timeRemaining p
  /\ intervals p' = intervals p /\ session_item p' = session_item p
  /\ emergencyExit_hidden p' = true
  /\ beforeunload_prevented p' = false.
Proof.
  cbv zeta.
  pose proof (web_run_consistent before _
                (loaded_throws now editor_value hours minutes checked item false)
                (loaded_consistent now editor_value hours minutes checked item false))
    as Hc.
  set (p := web_run before _) in *. clearbody p.
  intros Ha Hs Hes.
  assert (Hp : settingsPanel_hidden p = true /\ emergencyExit_hidden p = true).
  { destruct Hc as [Hc1 Hc2]. rewrite Ha in Hc1. destruct Hc1 as (_ & _ & Hpanel).
    split; [exact Hpanel|].
    destruct (emergencyExit_hidden p); [reflexivity|].
    destruct (Hc2 eq_refl) as [_ Hstrict]. congruence. }
  destruct Hp as [Hpanel Hdialog]. clear Hc.
  revert p Ha Hs Hpanel Hdialog.
  induction es as [|e es IH]; intros p Ha Hs Hpanel Hdialog; cbn [web_run].
  - repeat split; try assumption || reflexivity.
    unfold beforeunload_prevented. now rewrite Hs, andb_false_r.
  - cbn [forallb] in Hes. apply andb_true_iff in Hes as [He Hes].
    destruct (user_action_relaxed e p He Ha Hs Hpanel Hdialog)
      as (Ha' & Hs' & Hp' & Hd' & Hr' & Hi' & Hitem').
    rewrite <- Hr', <- Hi', <- Hitem'. now apply IH.
Qed.

End WebFacts.

Lemma countdown_counts_firings_witness :
  WebEdition.sessionActive
    (WebEdition.web_run (H := plain_host)
       (List.map (WebEdition.IntervalFired 1) (repeat 0 60))
       (WebEdition.web_run (H := plain_host) (WebEdition.one_minute_session true)
          WebEdition.empty_page))
  = false.
Proof.
  assert (Hin : 1%N ∈ WebEdition.intervals
                  (WebEdition.web_run (H := plain_host)
                     (WebEdition.one_minute_session true) WebEdition.empty_page)).
  { vm_compute. reflexivity. }
  destruct (countdown_counts_firings (H := plain_host)
              (WebEdition.web_run (H := plain_host) (WebEdition.one_minute_session true)
                 WebEdition.empty_page)
              1 (repeat 0 60) eq_refl eq_refl eq_refl Hin ltac:(vm_compute; reflexivity))
    as [_ Hend].
  apply Hend. vm_compute. reflexivity.
Defined.

Lemma reload_resumes_countdown_witness :
  WebEdition.timeRemaining
    (WebEdition.web_step (H := plain_host)
       (WebEdition.Reloaded 11000 [] [] [] true)
       (WebEdition.web_step (H := plain_host) (WebEdition.IntervalFired 1 1000)
          (WebEdition.web_run (H := plain_host) (WebEdition.one_minute_session true)
             WebEdition.empty_page)))
  = 49.
Proof.
  assert (Hin : 1%N ∈ WebEdition.intervals
                  (WebEdition.web_run (H := plain_host)
                     (WebEdition.one_minute_session true) WebEdition.empty_page)).
  { vm_compute. reflexivity. }
  pose proof (reload_resumes_countdown (H := plain_host)
                (WebEdition.web_run (H := plain_host) (WebEdition.one_minute_session true)
                   WebEdition.empty_page)
                1 1000 11000 [] [] [] true eq_refl eq_refl eq_refl Hin
                ltac:(vm_compute; reflexivity)) as Hw.
  cbv zeta in Hw. vm_compute in Hw. destruct Hw as (_ & Hleft & _).
  vm_compute. exact Hleft.
Defined.


Lemma storage_failure_strands_session_witness :
  WebEdition.sessionActive
    (WebEdition.startTimedSession 0 (WebEdition.loaded 0 [] [] (lit "5") true None true))
  = true
  /\ WebEdition.intervals
       (WebEdition.startTimedSession 0 (WebEdition.loaded 0 [] [] (lit "5") true None true))
     = ∅.
Proof.
  destruct (storage_failure_strands_session
              (WebEdition.loaded 0 [] [] (lit "5") true None true) 0 eq_refl)
    as [Hstart _].
  destruct (Hstart ltac:(vm_compute; discriminate)) as (Ha & _ & Hi & _).
  split; [exact Ha | exact Hi].
Defined.

Lemma relaxed_session_has_no_exit_witness :
  WebEdition.sessionActive
    (WebEdition.web_run (H := plain_host)
       [WebEdition.EscapePressed; WebEdition.EmergencyTyped (lit "EMERGENCY EXIT");
        WebEdition.TimerButtonClicked; WebEdition.StartSessionClicked 5000]
       (WebEdition.web_run (H := plain_host) (WebEdition.one_minute_session false)
          WebEdition.empty_page))
  = true.
Proof.
  destruct (relaxed_session_has_no_exit (H := plain_host) 0 [] [] [] true None
              (WebEdition.one_minute_session false)
              [WebEdition.EscapePressed; WebEdition.EmergencyTyped (lit "EMERGENCY EXIT");
               WebEdition.TimerButtonClicked; WebEdition.StartSessionClicked 5000]
              eq_refl eq_refl eq_refl) as [Ha _].
  exact Ha.
Defined.
